(** * HealthyCity (byte-force): the dashboard client, the analytics gateway
      and the Earth Engine helper, embedded and checked against their
      specification.

    Sources embedded here:
    - [src/main.py]     the FastAPI gateway            (Module [Main])
    - [src/gee_data.py] the earlier Earth Engine helper (Module [GeeData])
    - [src/app.py]      the Streamlit dashboard         (Module [App])

    Conventions.
    - A Python value that crosses a JSON boundary is a [json]; a [dict] is an
      association list in insertion order, [None] is [JNull].
    - JSON numbers are exact rationals ([Q]).  The only arithmetic the
      gateway performs itself ([main.py], line 101) is embedded a second
      time in IEEE binary64, as CPython evaluates it (Module [Binary64]).
    - Text is [string]; only the ASCII letters have a case.
    - A Python exception is a value of [exn]; code that may raise returns an
      [outcome]. *)

From Stdlib Require Import ZArith QArith Qfield Lqa Lia.
From Stdlib Require Import List String Ascii Bool DecimalString.
From Stdlib Require Import Floats.
Import ListNotations.

Set Implicit Arguments.
Set Warnings "-register-all,-inexact-float".


(* ================================================================== *)
(** * Python values *)
(* ================================================================== *)

Module Py.

Open Scope string_scope.

(** ** JSON values, as [response.json()] and FastAPI's encoder see them *)

Inductive json : Type :=
| JNull
| JBool (b : bool)
| JNum (q : Q)
| JStr (s : string)
| JList (items : list json)
| JObj (fields : list (string * json)).

(** [d.get(key)] / [key in d] on a dict in insertion order. *)
Fixpoint assoc (key : string) (fields : list (string * json)) : option json :=
  match fields with
  | [] => None
  | (k, v) :: rest => if String.eqb key k then Some v else assoc key rest
  end.

(** Python truthiness ([if x:], [not x]). *)
Definition truthy (v : json) : bool :=
  match v with
  | JNull => false
  | JBool b => b
  | JNum q => negb (Qeq_bool q 0)
  | JStr s => negb (String.eqb s "")
  | JList items => match items with [] => false | _ => true end
  | JObj fields => match fields with [] => false | _ => true end
  end.

(** Truthiness of an optional string ([os.getenv], [dict.get]): [None] and
    [""] are falsy. *)
Definition truthy_str (v : option string) : bool :=
  match v with
  | None => false
  | Some s => negb (String.eqb s "")
  end.

(** [needle in haystack] for two strings. *)
Fixpoint contains (needle haystack : string) : bool :=
  if prefix needle haystack then true
  else match haystack with
       | EmptyString => false
       | String _ rest => contains needle rest
       end.

Definition json_is_str (s : string) (v : json) : bool :=
  match v with
  | JStr t => String.eqb s t
  | _ => false
  end.

(** [key in data] where [key] is a string: membership of a key for a dict,
    of an element for a list, of a substring for a string; a [TypeError]
    ([None] here) for [None], numbers and booleans. *)
Definition str_in (key : string) (data : json) : option bool :=
  match data with
  | JObj fields => Some (match assoc key fields with Some _ => true | None => false end)
  | JList items => Some (existsb (json_is_str key) items)
  | JStr s => Some (contains key s)
  | JNull | JBool _ | JNum _ => None
  end.

(** ** [str.title()], [str.lower()] on ASCII text

    CPython walks the string once: a character that follows a cased
    character is lower-cased, any other is title-cased (upper-cased, for
    ASCII). *)

Definition is_upper (c : ascii) : bool :=
  (65 <=? nat_of_ascii c)%nat && (nat_of_ascii c <=? 90)%nat.

Definition is_lower (c : ascii) : bool :=
  (97 <=? nat_of_ascii c)%nat && (nat_of_ascii c <=? 122)%nat.

Definition is_cased (c : ascii) : bool := is_upper c || is_lower c.

Definition to_upper (c : ascii) : ascii :=
  if is_lower c then ascii_of_nat (nat_of_ascii c - 32) else c.

Definition to_lower (c : ascii) : ascii :=
  if is_upper c then ascii_of_nat (nat_of_ascii c + 32) else c.

Fixpoint title_from (previous_is_cased : bool) (s : string) : string :=
  match s with
  | EmptyString => EmptyString
  | String c rest =>
      String (if previous_is_cased then to_lower c else to_upper c)
             (title_from (is_cased c) rest)
  end.

Definition title (s : string) : string := title_from false s.

Fixpoint lower (s : string) : string :=
  match s with
  | EmptyString => EmptyString
  | String c rest => String (to_lower c) (lower rest)
  end.

(** ** Paths: [str.split("/")], [str.endswith("/")], [str.rstrip("/")] *)

Fixpoint split_slash (s : string) : list string :=
  match s with
  | EmptyString => [EmptyString]
  | String c rest =>
      if Ascii.eqb c "/" then EmptyString :: split_slash rest
      else match split_slash rest with
           | segment :: segments => String c segment :: segments
           | [] => [String c EmptyString]
           end
  end.

Fixpoint ends_with_slash (s : string) : bool :=
  match s with
  | EmptyString => false
  | String c EmptyString => Ascii.eqb c "/"
  | String _ rest => ends_with_slash rest
  end.

Fixpoint rstrip_slash (s : string) : string :=
  match s with
  | EmptyString => EmptyString
  | String c rest =>
      match rstrip_slash rest with
      | EmptyString => if Ascii.eqb c "/" then EmptyString else String c EmptyString
      | kept => String c kept
      end
  end.

(** ** Exceptions *)

Inductive exn : Type :=
| HTTPException (status_code : Z) (detail : string)
| Exception (message : string).

Inductive outcome (A : Type) : Type :=
| Return (a : A)
| Raise (e : exn).

Arguments Return {A} a.
Arguments Raise {A} e.

Definition bind {A B : Type} (m : outcome A) (k : A -> outcome B) : outcome B :=
  match m with
  | Return a => k a
  | Raise e => Raise e
  end.

(** ** Subscripts: [data[0]] and [data["key"]]

    The message of the exception raised ([IndexError], [KeyError],
    [TypeError]) is what [str(e)] gives. *)

Definition getitem_0 (data : json) : outcome json :=
  match data with
  | JList (first :: _) => Return first
  | JList [] => Raise (Exception "list index out of range")
  | JStr (String c _) => Return (JStr (String c EmptyString))
  | JStr EmptyString => Raise (Exception "string index out of range")
  | JObj _ => Raise (Exception "0")
  | JNull | JBool _ | JNum _ => Raise (Exception "object is not subscriptable")
  end.

Definition getitem (key : string) (data : json) : outcome json :=
  match data with
  | JObj fields =>
      match assoc key fields with
      | Some v => Return v
      | None => Raise (Exception ("'" ++ key ++ "'"))
      end
  | JList _ => Raise (Exception "list indices must be integers or slices, not str")
  | JStr _ => Raise (Exception "string indices must be integers, not 'str'")
  | JNull | JBool _ | JNum _ => Raise (Exception "object is not subscriptable")
  end.

(** Decimal rendering of an integer, as [str(n)] and f-strings give it. *)
Definition str_of_Z (n : Z) : string := NilZero.string_of_int (Z.to_int n).

End Py.

Import Py.

Declare Scope py_scope.
Delimit Scope py_scope with py.
Notation "x <- m ;; k" := (bind m (fun x => k))
  (at level 61, m at next level, right associativity) : py_scope.
Notation "' pat <- m ;; k" := (bind m (fun x => match x with pat => k end))
  (at level 61, pat pattern, m at next level, right associativity) : py_scope.

(* ================================================================== *)
(** * [src/main.py]: the analytics gateway *)
(* ================================================================== *)

Module Main.

Open Scope string_scope.
Open Scope py_scope.

(** ** The collaborators *)

(** What [requests.get(url)] does: it raises (no connection, ...) or it
    returns a response with a status code and a body that [response.json()]
    decodes ([inr]) or rejects ([inl], with the decoder's message). *)
Inductive http_reply : Type :=
| Unreachable (message : string)
| Reply (status_code : Z) (body : string + json).

(** Earth Engine.  A scene of a collection carries named properties and,
    for a sampling scale, the pixels that cover the queried region: each
    with the weight the reducer gives it (the fraction of the pixel inside
    the region, 0 when masked) and its band values. *)
Record pixel : Type := { weight : Q; band : string -> Q }.

Record scene : Type := {
  property : string -> option Q;
  pixels : Z -> list pixel
}.

(** [ee.Geometry.Point(lon, lat).buffer(radius)]. *)
Record region : Type := { lon : json; lat : json; radius : Z }.

(** [ee.ImageCollection(name).filterBounds(region).filterDate(start, end)]:
    the part of the request the service answers from its catalogue. *)
Record catalogue_query : Type := {
  collection : string;
  bounds : region;
  date_start : string;
  date_end : string
}.

Inductive ee_reply : Type :=
| EEError (message : string)
| EEScenes (scenes : list scene).

(** A single-band image over the region: weighted values. *)
Definition band_image : Type := list (Q * Q).

(** ** The environment ([load_dotenv], [os.getenv]) *)

Record environ : Type := {
  OPENWEATHER_API_KEY : option string;
  GOOGLE_CLOUD_PROJECT : option string
}.

(** What module initialisation leaves behind: whether the Earth Engine
    client library is initialised, and what was printed. *)
Record server : Type := {
  env : environ;
  ee_initialized : bool;
  printed : list string
}.

Definition str_of_exn (e : exn) : string :=
  match e with
  | HTTPException status detail => str_of_Z status ++ ": " ++ detail
  | Exception message => message
  end.

(** ** Image algebra the endpoints ask Earth Engine to evaluate *)

(** [ee.Filter.lt(name, bound)]: scenes without the property are dropped. *)
Definition filter_lt (name : string) (bound : Q) (scenes : list scene) : list scene :=
  filter (fun s => match property s name with
                   | Some v => if Qlt_le_dec v bound then true else false
                   | None => false
                   end) scenes.

Definition property_le (name : string) (a b : scene) : bool :=
  match property a name, property b name with
  | Some x, Some y => Qle_bool x y
  | Some _, None => true
  | None, _ => false
  end.

Fixpoint insert_by (name : string) (s : scene) (sorted : list scene) : list scene :=
  match sorted with
  | [] => [s]
  | t :: rest => if property_le name s t then s :: sorted else t :: insert_by name s rest
  end.

(** [.sort(name)]: ascending, stable. *)
Definition sort (name : string) (scenes : list scene) : list scene :=
  fold_right (insert_by name) [] scenes.

(** [.first()] of an empty collection is null; every later use of it fails
    when the request is evaluated. *)
Definition first (scenes : list scene) : outcome scene :=
  match scenes with
  | s :: _ => Return s
  | [] => Raise (Exception "Parameter 'input' is required and may not be null.")
  end.

(** [image.select(name)] sampled over the region at [scale]. *)
Definition select (name : string) (scale : Z) (image : scene) : band_image :=
  map (fun p => (weight p, band p name)) (pixels image scale).

(** [image.normalizedDifference([a, b])]: [(a - b) / (a + b)]; a pixel with
    a negative input, or with [a + b = 0], is masked. *)
Definition normalizedDifference (a b : string) (scale : Z) (image : scene) : band_image :=
  map (fun p =>
         let x := band p a in
         let y := band p b in
         if Qlt_le_dec x 0 then (0, 0)
         else if Qlt_le_dec y 0 then (0, 0)
         else if Qeq_bool (x + y) 0 then (0, 0)
         else (weight p, (x - y) / (x + y)))
      (pixels image scale).

Definition multiply (c : Q) (img : band_image) : band_image :=
  map (fun p => (fst p, snd p * c)) img.

Definition add (c : Q) (img : band_image) : band_image :=
  map (fun p => (fst p, snd p + c)) img.

Definition subtract (c : Q) (img : band_image) : band_image :=
  map (fun p => (fst p, snd p - c)) img.

Definition total_weight (img : band_image) : Q :=
  fold_right (fun p acc => fst p + acc) 0 img.

Definition weighted_sum (img : band_image) : Q :=
  fold_right (fun p acc => fst p * snd p + acc) 0 img.

(** [reduceRegion(reducer=ee.Reducer.mean(), ...).get(name).getInfo()]:
    the weighted mean, [None] when no pixel has weight. *)
Definition reduceRegion_mean (img : band_image) : option Q :=
  if Qeq_bool (total_weight img) 0 then None
  else Some (weighted_sum img / total_weight img).

(** Line 101. *)
Definition green_cover_percentage (avg_ndvi : Q) : Q := (avg_ndvi + 1) * 50.

(** Lines 136-139, on one pixel value. *)
Definition lst_celsius (v : Q) : Q := v * 0.00341802 + 149.0 - 273.15.

(** The dict of lines 101-109. *)
Definition green_response (city : string) (lat lon : json) (avg_ndvi : Q) : json :=
  JObj [ ("city", JStr (title city));
         ("location", JObj [("lat", lat); ("lon", lon)]);
         ("avg_ndvi", JNum avg_ndvi);
         ("green_cover_percentage", JNum (green_cover_percentage avg_ndvi));
         ("data_source", JStr "Copernicus Sentinel-2") ].

(** The dict of lines 153-158. *)
Definition heat_response (city : string) (lat lon : json) (avg_lst_celsius : Q) : json :=
  JObj [ ("city", JStr (title city));
         ("location", JObj [("lat", lat); ("lon", lon)]);
         ("avg_lst_celsius", JNum avg_lst_celsius);
         ("data_source", JStr "USGS Landsat 8") ].

(** Lines 76-78 and 127-129: collection, bounds and dates of the two
    requests. *)
Definition sentinel2 (region : region) : catalogue_query :=
  {| collection := "COPERNICUS/S2_SR_HARMONIZED"; bounds := region;
     date_start := "2023-01-01"; date_end := "2023-12-31" |}.

Definition landsat8 (region : region) : catalogue_query :=
  {| collection := "LANDSAT/LC08/C02/T1_L2"; bounds := region;
     date_start := "2023-01-01"; date_end := "2023-12-31" |}.

Section Gateway.

(** [ee.Initialize(project=...)]: returns, or raises with a message. *)
Variable ee_Initialize : string -> outcome unit.
(** [requests.get(geo_url)]. *)
Variable geocoder : string -> http_reply.
(** The Earth Engine service, asked when [getInfo()] runs. *)
Variable earth_engine : catalogue_query -> ee_reply.
(** What the client library says when used without [ee.Initialize]. *)
Variable ee_not_initialized : string.

(** ** Module initialisation (lines 11-36) *)

Definition initialize (e : environ) : server :=
  let attempt : outcome unit :=
    match GOOGLE_CLOUD_PROJECT e with
    | Some project =>
        if truthy_str (GOOGLE_CLOUD_PROJECT e) then ee_Initialize project
        else Raise (Exception "GOOGLE_CLOUD_PROJECT environment variable not set.")
    | None => Raise (Exception "GOOGLE_CLOUD_PROJECT environment variable not set.")
    end in
  match attempt with
  | Return _ =>
      {| env := e; ee_initialized := true;
         printed := ["✅ Google Earth Engine Initialized Successfully."] |}
  | Raise err =>
      {| env := e; ee_initialized := false;
         printed := ["❌ ERROR: Google Earth Engine failed to initialize. Details: "
                       ++ str_of_exn err] |}
  end.

Variable srv : server.

(** ** [get_city_coords] (lines 41-54) *)

Definition geo_url (city_name key : string) : string :=
  "http://api.openweathermap.org/geo/1.0/direct?q=" ++ city_name
    ++ "&limit=1&appid=" ++ key.

Definition get_city_coords (city_name : string) : outcome (json * json) :=
  match OPENWEATHER_API_KEY (env srv) with
  | None =>
      Raise (HTTPException 500 "OpenWeatherMap API key is not configured on the server.")
  | Some key =>
      if negb (truthy_str (Some key)) then
        Raise (HTTPException 500 "OpenWeatherMap API key is not configured on the server.")
      else
        match geocoder (geo_url city_name key) with
        | Unreachable message => Raise (Exception message)
        | Reply status_code body =>
            if negb (status_code =? 200)%Z then
              Raise (HTTPException 500 "Failed to connect to Geocoding service.")
            else
              match body with
              | inl message => Raise (Exception message)
              | inr data =>
                  if negb (truthy data) then
                    Raise (HTTPException 404 ("City '" ++ city_name ++ "' not found."))
                  else
                    place <- getitem_0 data ;;
                    lat <- getitem "lat" place ;;
                    place' <- getitem_0 data ;;
                    lon <- getitem "lon" place' ;;
                    Return (lat, lon)
              end
        end
  end.

(** The two [except] clauses that close both endpoints: an [HTTPException]
    is raised again as it is, any other exception becomes a 500. *)
Definition except_clauses (body : outcome json) : outcome json :=
  match body with
  | Return response => Return response
  | Raise (HTTPException status_code detail) => Raise (HTTPException status_code detail)
  | Raise (Exception message) =>
      Raise (HTTPException 500 ("An error occurred with Google Earth Engine: " ++ message))
  end.

(** [ee.Geometry.Point(lon, lat).buffer(2000)]; the first use of the client
    library, which refuses to work when it was not initialised. *)
Definition buffered_point (lon lat : json) (radius : Z) : outcome region :=
  if ee_initialized srv then Return {| lon := lon; lat := lat; radius := radius |}
  else Raise (Exception ee_not_initialized).

(** The scenes of a collection, once Earth Engine evaluates the request. *)
Definition ImageCollection (query : catalogue_query) : outcome (list scene) :=
  match earth_engine query with
  | EEError message => Raise (Exception message)
  | EEScenes scenes => Return scenes
  end.

(** ** [get_green_cover] (lines 64-113) *)

Definition get_green_cover (city : string) : outcome json :=
  except_clauses (
    '(lat, lon) <- get_city_coords city ;;
    region <- buffered_point lon lat 2000 ;;
    scenes <- ImageCollection (sentinel2 region) ;;
    let collection :=
      sort "CLOUDY_PIXEL_PERCENTAGE" (filter_lt "CLOUDY_PIXEL_PERCENTAGE" 20 scenes) in
    image <- first collection ;;
    let ndvi := normalizedDifference "B8" "B4" 10 image in
    match reduceRegion_mean ndvi with
    | None =>
        Raise (HTTPException 404
                 ("Could not compute NDVI for " ++ city
                    ++ ". No clear satellite imagery might be available."))
    | Some avg_ndvi =>
        Return (green_response city lat lon avg_ndvi)
    end).

(** ** [get_heat_map] (lines 116-162) *)

Definition get_heat_map (city : string) : outcome json :=
  except_clauses (
    '(lat, lon) <- get_city_coords city ;;
    region <- buffered_point lon lat 2000 ;;
    scenes <- ImageCollection (landsat8 region) ;;
    let collection := sort "CLOUD_COVER" (filter_lt "CLOUD_COVER" 20 scenes) in
    image <- first collection ;;
    let lst := subtract 273.15 (add 149.0 (multiply 0.00341802 (select "ST_B10" 30 image))) in
    match reduceRegion_mean lst with
    | None =>
        Raise (HTTPException 404
                 ("Could not compute LST for " ++ city
                    ++ ". No clear satellite imagery might be available."))
    | Some avg_lst_celsius =>
        Return (heat_response city lat lon avg_lst_celsius)
    end).

Definition read_root : outcome json :=
  Return (JObj [("message",
                 JStr "Welcome to the HealthyCity API. See /docs for endpoint details.")]).

(** ** The FastAPI application: routing and response encoding

    A request is a GET for a (percent-decoded) path.  The routes are the
    documentation pages FastAPI adds by default and the three the module
    declares; a path parameter such as [{city}] matches one non-empty
    segment without [/]. *)

Inductive http_response : Type :=
| JSONResponse (status_code : Z) (content : json)
| PlainTextResponse (status_code : Z) (content : string)
| RedirectResponse (url : string)
| FrameworkPage (path : string).

Definition status_of (r : http_response) : Z :=
  match r with
  | JSONResponse status_code _ => status_code
  | PlainTextResponse status_code _ => status_code
  | RedirectResponse _ => 307
  | FrameworkPage _ => 200
  end.

(** How FastAPI answers for a handler: the returned dict with 200, an
    [HTTPException] as [{"detail": ...}] with its status, anything else
    as a bare 500. *)
Definition respond (result : outcome json) : http_response :=
  match result with
  | Return content => JSONResponse 200 content
  | Raise (HTTPException status_code detail) =>
      JSONResponse status_code (JObj [("detail", JStr detail)])
  | Raise (Exception _) => PlainTextResponse 500 "Internal Server Error"
  end.

Inductive route : Type :=
| Docs
| Root
| CityGreen (city : string)
| CityHeatmap (city : string).

Definition framework_paths : list string :=
  ["/openapi.json"; "/docs"; "/docs/oauth2-redirect"; "/redoc"].

Definition match_route (path : string) : option route :=
  if existsb (String.eqb path) framework_paths then Some Docs
  else match split_slash path with
       | [""; ""] => Some Root
       | [""; "city"; city; "green"] =>
           if String.eqb city "" then None else Some (CityGreen city)
       | [""; "city"; city; "heatmap"] =>
           if String.eqb city "" then None else Some (CityHeatmap city)
       | _ => None
       end.

Definition app (path : string) : http_response :=
  match match_route path with
  | Some Docs => FrameworkPage path
  | Some Root => respond read_root
  | Some (CityGreen city) => respond (get_green_cover city)
  | Some (CityHeatmap city) => respond (get_heat_map city)
  | None =>
      let other := if ends_with_slash path then rstrip_slash path else path ++ "/" in
      if negb (String.eqb path "/") && (match match_route other with Some _ => true | None => false end)
      then RedirectResponse other
      else JSONResponse 404 (JObj [("detail", JStr "Not Found")])
  end.

End Gateway.

End Main.

(* ================================================================== *)
(** * [src/gee_data.py]: the earlier helper *)
(* ================================================================== *)

Module GeeData.

Open Scope string_scope.

(** [get_heatmap] (lines 8-17), from the sampled value [lst] on. *)
Definition avg_temp (lst : Q) : Q := lst / 10.

Definition get_heatmap (lst : Q) : json := JObj [("avg_temp", JNum (avg_temp lst))].

(** [get_ndvi] (lines 20-29), from the sampled value [ndvi] on. *)
Definition get_ndvi (ndvi : Q) : json := JObj [("green_pct", JNum (ndvi * 100))].

End GeeData.

(* ================================================================== *)
(** * [src/app.py]: the dashboard *)
(* ================================================================== *)

Module App.

Open Scope string_scope.

Definition API_BASE_URL : string := "http://127.0.0.1:8000".

(** ** The backend, as [requests] shows it

    [requests.get(url, timeout=120)] raises [ConnectionError] (which
    includes a timeout while connecting), [Timeout] (while reading), some
    other [RequestException] raised before a response exists, or returns a
    response.  [response.json()] decodes the body ([inr]) or raises
    [requests.exceptions.JSONDecodeError], a [RequestException] that
    carries no response ([inl], with its message). *)
Inductive fetch_result : Type :=
| ConnectionError (message : string)
| Timeout (message : string)
| RequestException (message : string)
| Response (status_code : Z) (reason : string) (body : string + json).

(** ** [st.session_state] *)

Record session_state : Type := {
  city : string;
  analysis_type : string;
  map_data : json;
  metrics : json;
  error : json
}.

(** What the user did since the last run of the script. *)
Record user_input : Type := {
  city_input : string;
  submitted : bool;
  radio : string
}.

(** ** What the script puts on the page *)

Inductive widget : Type :=
| Title (body : string)
| TextInput (label value : string)
| FormSubmitButton (label : string)
| Radio (label : string) (options : list string)
| Spinner (text : string)
| Header (body : string)
| Markdown (body : string)
| Warning (body : string)
| Error (body : json)
| Subheader (body : string)
| Metric (label : string) (value : Q) (decimals : nat) (unit : string)
| Info (body : string)
| FoliumMap (lat lon : json) (popup tooltip : string).

Definition is_error_banner (w : widget) : bool :=
  match w with
  | Error _ => true
  | _ => false
  end.

(** The widgets that show a result: a metric or the map. *)
Definition shows_result (w : widget) : bool :=
  match w with
  | Metric _ _ _ _ | FoliumMap _ _ _ _ => true
  | _ => false
  end.

(** ** The script as a state transformer

    A run threads the session, the widgets drawn so far and the URLs
    requested so far; it goes on, is stopped by [st.stop()], or dies of an
    uncaught exception. *)

Record page : Type := {
  session : session_state;
  screen : list widget;
  requested : list string
}.

Inductive halt : Type :=
| Stop
| Crash (message : string).

Inductive step (A : Type) : Type :=
| Next (a : A) (p : page)
| Halt (h : halt) (p : page).

Arguments Next {A} a p.
Arguments Halt {A} h p.

Definition script (A : Type) : Type := page -> step A.

Definition page_after {A : Type} (r : step A) : page :=
  match r with
  | Next _ p => p
  | Halt _ p => p
  end.

(** A piece of script that only draws: it leaves the session and the list
    of requests as they are, however it ends. *)
Definition only_draws {A : Type} (m : script A) : Prop :=
  forall p, session (page_after (m p)) = session p
            /\ requested (page_after (m p)) = requested p.

Definition ret {A : Type} (a : A) : script A := fun p => Next a p.

Definition seq {A B : Type} (m : script A) (k : A -> script B) : script B :=
  fun p => match m p with
           | Next a p' => k a p'
           | Halt h p' => Halt h p'
           end.

Declare Scope script_scope.
Delimit Scope script_scope with script.
Notation "x <- m ;; k" := (seq m (fun x => k))
  (at level 61, m at next level, right associativity) : script_scope.
Notation "m ;; k" := (seq m (fun _ => k))
  (at level 61, right associativity) : script_scope.
Open Scope script_scope.

(** The three things a step can do to the page. *)
Definition draw (w : widget) (p : page) : page :=
  {| session := session p; screen := screen p ++ [w]; requested := requested p |}.

Definition with_session (f : session_state -> session_state) (p : page) : page :=
  {| session := f (session p); screen := screen p; requested := requested p |}.

Definition sent (url : string) (p : page) : page :=
  {| session := session p; screen := screen p; requested := requested p ++ [url] |}.

Definition st (w : widget) : script unit := fun p => Next tt (draw w p).

Definition stop {A : Type} : script A := fun p => Halt Stop p.

Definition uncaught {A : Type} (message : string) : script A :=
  fun p => Halt (Crash message) p.

Definition get_session : script session_state := fun p => Next (session p) p.

Definition update (f : session_state -> session_state) : script unit :=
  fun p => Next tt (with_session f p).

Definition set_city (v : string) (s : session_state) : session_state :=
  {| city := v; analysis_type := analysis_type s; map_data := map_data s;
     metrics := metrics s; error := error s |}.

Definition set_analysis_type (v : string) (s : session_state) : session_state :=
  {| city := city s; analysis_type := v; map_data := map_data s;
     metrics := metrics s; error := error s |}.

Definition set_map_data (v : json) (s : session_state) : session_state :=
  {| city := city s; analysis_type := analysis_type s; map_data := v;
     metrics := metrics s; error := error s |}.

Definition set_metrics (v : json) (s : session_state) : session_state :=
  {| city := city s; analysis_type := analysis_type s; map_data := map_data s;
     metrics := v; error := error s |}.

Definition set_error (v : json) (s : session_state) : session_state :=
  {| city := city s; analysis_type := analysis_type s; map_data := map_data s;
     metrics := metrics s; error := v |}.

(** An expression that may raise, evaluated outside any [try]. *)
Definition eval {A : Type} (o : outcome A) : script A :=
  match o with
  | Return a => ret a
  | Raise e => uncaught (match e with
                         | HTTPException _ detail => detail
                         | Exception message => message
                         end)
  end.

Section Dashboard.

(** The network: what a GET for a URL comes back with. *)
Variable backend : string -> fetch_result.

Definition requests_get (url : string) : script fetch_result :=
  fun p => Next (backend url) (sent url p).

(** ** [get_city_data] (lines 19-46) *)

Definition endpoint_map : list (string * string) :=
  [("Green Cover", "green"); ("Heat Map", "heatmap")].

Definition endpoint_map_get (analysis_type : string) : option string :=
  option_map snd (find (fun kv => String.eqb analysis_type (fst kv)) endpoint_map).

(** The message of the [HTTPError] that [raise_for_status] raises. *)
Definition http_error_message (status_code : Z) (reason url : string) : string :=
  str_of_Z status_code
    ++ (if (status_code <? 500)%Z then " Client Error: " else " Server Error: ")
    ++ reason ++ " for url: " ++ url.

Definition error_dict (message : string) : json := JObj [("error", JStr message)].

(** The third [except] clause (lines 42-46).  [e.response] is [None] for a
    decoding error and for an exception raised before a response exists; for
    the [HTTPError] of [raise_for_status] it is the 4xx/5xx response, which
    is falsy ([Response.__bool__] is [ok]): [error_data] is [{}] every
    time, and [detail] is [str(e)]. *)
Definition api_error (str_e : string) : json :=
  let error_data : list (string * json) := [] in
  let detail := match assoc "detail" error_data with
                | Some (JStr d) => d
                | _ => str_e
                end in
  error_dict ("API Error: " ++ detail).

Definition get_city_data (city analysis_type : string) : script json :=
  let endpoint := endpoint_map_get analysis_type in
  if negb (truthy_str endpoint) then ret (error_dict "Invalid analysis type selected.")
  else
    let url := API_BASE_URL ++ "/city/" ++ city ++ "/"
                 ++ match endpoint with Some e => e | None => "None" end in
    response <- requests_get url ;;
    match response with
    | ConnectionError _ =>
        ret (error_dict ("Connection Error: Could not connect to the backend at "
                           ++ API_BASE_URL ++ ". Please ensure the server is running."))
    | Timeout _ =>
        ret (error_dict "The request to the backend timed out. The server might be busy or the request is complex.")
    | RequestException message => ret (api_error message)
    | Response status_code reason body =>
        if (400 <=? status_code)%Z && (status_code <? 600)%Z then
          ret (api_error (http_error_message status_code reason url))
        else
          match body with
          | inl message => ret (api_error message)
          | inr data => ret data
          end
    end.

(** ** The script, top to bottom *)

(** Lines 51-60: a session that has none of the fields yet gets the defaults. *)
Definition fresh_session : session_state :=
  {| city := ""; analysis_type := "Green Cover";
     map_data := JNull; metrics := JNull; error := JNull |}.

Definition initialize (previous : option session_state) : session_state :=
  match previous with
  | Some s => s
  | None => fresh_session
  end.

Definition analyses : list string :=
  ["Green Cover"; "Heat Map"; "Flood Risk"; "Air Quality"; "Report Card"].

(** Lines 63-78. *)
Definition sidebar (input : user_input) : script unit :=
  st (Title "🌍 HealthyCity Dashboard") ;;
  st (Info "Real-time environmental insights for global cities, powered by Google Earth Engine.") ;;
  s <- get_session ;;
  st (TextInput "Enter a city:" (city s)) ;;
  st (FormSubmitButton "Analyze City") ;;
  st (Radio "Select an Analysis" analyses) ;;
  update (set_analysis_type (radio input)).

(** [data.get("location")]. *)
Definition get_location (data : json) : outcome json :=
  match data with
  | JObj fields => Return (match assoc "location" fields with Some v => v | None => JNull end)
  | _ => Raise (Exception "object has no attribute 'get'")
  end.

(** Lines 82-96. *)
Definition data_fetching (input : user_input) : script unit :=
  if submitted input && negb (String.eqb (city_input input) "") then
    update (set_city (city_input input)) ;;
    update (set_map_data JNull) ;;
    update (set_metrics JNull) ;;
    update (set_error JNull) ;;
    s <- get_session ;;
    st (Spinner ("Analyzing " ++ analysis_type s ++ " for " ++ city s
                   ++ "... This may take a moment.")) ;;
    data <- get_city_data (city s) (analysis_type s) ;;
    match str_in "error" data with
    | None => uncaught "argument is not iterable"
    | Some true =>
        message <- eval (getitem "error" data) ;;
        update (set_error message)
    | Some false =>
        update (set_metrics data) ;;
        location <- eval (get_location data) ;;
        update (set_map_data location)
    end
  else ret tt.

(** Lines 102-112. *)
Definition main_page_title : script unit :=
  s <- get_session ;;
  if String.eqb (analysis_type s) "Green Cover" then
    st (Header "🌳 Urban Green Cover") ;;
    st (Markdown "Analyzing Normalized Difference Vegetation Index (NDVI) to assess vegetation health and coverage using Sentinel-2 satellite imagery.")
  else if String.eqb (analysis_type s) "Heat Map" then
    st (Header "🔥 Urban Heat Map") ;;
    st (Markdown "Analyzing Land Surface Temperature (LST) to identify heat islands using thermal bands from Landsat 8 satellite.")
  else
    st (Header ("📊 " ++ analysis_type s)) ;;
    st (Warning "This feature is under construction. Please check back later!") ;;
    stop.

(** Lines 115-116. *)
Definition error_banner : script unit :=
  s <- get_session ;;
  if truthy (error s) then st (Error (error s)) else ret tt.

(** [metrics.get(key, 0)] under a format specification [:.Nf]: a number is
    formatted ([True] and [False] as 1 and 0), anything else is refused. *)
Definition get_number (key : string) (m : json) : outcome Q :=
  match m with
  | JObj fields =>
      match assoc key fields with
      | None => Return 0
      | Some (JNum q) => Return q
      | Some (JBool b) => Return (if b then 1 else 0)
      | Some _ => Raise (Exception "unsupported format string")
      end
  | _ => Raise (Exception "object has no attribute 'get'")
  end.

(** Lines 121-140. *)
Definition metrics_column : script unit :=
  st (Subheader "Metrics") ;;
  s <- get_session ;;
  if truthy (metrics s) then
    if String.eqb (analysis_type s) "Green Cover" then
      cover <- eval (get_number "green_cover_percentage" (metrics s)) ;;
      st (Metric "Average Green Cover" cover 2 "%") ;;
      ndvi <- eval (get_number "avg_ndvi" (metrics s)) ;;
      st (Metric "Average NDVI" ndvi 4 "")
    else if String.eqb (analysis_type s) "Heat Map" then
      lst <- eval (get_number "avg_lst_celsius" (metrics s)) ;;
      st (Metric "Average Surface Temp." lst 2 " °C")
    else ret tt
  else st (Info "Search for a city to see its metrics.").

(** Lines 142-160.  The coordinates go to folium as they are. *)
Definition map_column : script unit :=
  st (Subheader "City Location") ;;
  s <- get_session ;;
  if truthy (map_data s) then
    lat <- eval (getitem "lat" (map_data s)) ;;
    lon <- eval (getitem "lon" (map_data s)) ;;
    st (FoliumMap lat lon (title (city s)) (title (city s)))
  else st (Info "Map will be displayed here once data is loaded.").

Definition dashboard (input : user_input) : script unit :=
  sidebar input ;;
  data_fetching input ;;
  main_page_title ;;
  error_banner ;;
  metrics_column ;;
  map_column.

(** One run of the script. *)
Inductive ending : Type :=
| Completed
| Stopped
| Crashed (message : string).

Record run : Type := {
  final : session_state;
  drawn : list widget;
  fetched : list string;
  ended : ending
}.

Definition ending_of {A : Type} (r : step A) : ending :=
  match r with
  | Next _ _ => Completed
  | Halt Stop _ => Stopped
  | Halt (Crash message) _ => Crashed message
  end.

Definition run_script (previous : option session_state) (input : user_input) : run :=
  let start := {| session := initialize previous; screen := []; requested := [] |} in
  let result := dashboard input start in
  {| final := session (page_after result);
     drawn := screen (page_after result);
     fetched := requested (page_after result);
     ended := ending_of result |}.

End Dashboard.

End App.

(* ================================================================== *)
(** * Line 101 of [main.py] as CPython evaluates it *)
(* ================================================================== *)

Module Binary64.

Open Scope float_scope.

(** [green_cover_percentage = (avg_ndvi + 1) * 50] on binary64 values: the
    integer literals are converted exactly, each operation rounds to
    nearest-even. *)
Definition green_cover_percentage (avg_ndvi : float) : float := (avg_ndvi + 1) * 50.


(** ** Rounding, as the specification of binary64 performs it *)

(** The exponent of the last bit that binary64 keeps of a number whose
    digits end at exponent [e]: 53 bits, and none below [2^-1074]. *)
Definition fexp64 (e : Z) : Z := Z.max (e - 53) (-1074).

(** The right shift of the rounding function after [k] one-bit steps:
    what is left of [orig], and what the two sticky bits know about the
    part shifted out. *)
Definition shifted (orig : Z) (k : Z) (mrs : shr_record) : Prop :=
  (0 <= shr_m mrs
   /\ exists t, orig = shr_m mrs * 2 ^ k + t /\ 0 <= t < 2 ^ k
                /\ (t = 0 -> shr_r mrs = false /\ shr_s mrs = false))%Z.

End Binary64.

(* ================================================================== *)
(** * A concrete deployment, used to run the definitions *)
(* ================================================================== *)

Module Demo.

Import Main.
Open Scope string_scope.

Definition configured : environ :=
  {| OPENWEATHER_API_KEY := Some "k3y"; GOOGLE_CLOUD_PROJECT := Some "healthy-city" |}.



Definition ee_Initialize (project : string) : outcome unit := Return tt.

(** A geocoder that knows Paris, in any letter case, and nothing else. *)
Definition paris : json :=
  JList [JObj [("name", JStr "Paris"); ("lat", JNum 48.8566); ("lon", JNum 2.3522);
               ("country", JStr "FR")]].

Definition geocoder (url : string) : http_reply :=
  if String.eqb (lower url)
       "http://api.openweathermap.org/geo/1.0/direct?q=paris&limit=1&appid=k3y"
  then Reply 200 (inr paris)
  else Reply 200 (inr (JList [])).

Definition bands (b8 b4 st_b10 : Q) (name : string) : Q :=
  if String.eqb name "B8" then b8
  else if String.eqb name "B4" then b4
  else if String.eqb name "ST_B10" then st_b10
  else 0.

(** One clear scene and one cloudy one; the clear scene has a single pixel
    with NDVI [(27 - 13) / (27 + 13) = 0.35] and thermal count 44000. *)
Definition clear_scene : scene :=
  {| property := fun _ => Some 3;
     pixels := fun _ => [ {| weight := 1; band := bands 2700 1300 44000 |} ] |}.

Definition cloudy_scene : scene :=
  {| property := fun _ => Some 12.5;
     pixels := fun _ => [ {| weight := 1; band := bands 900 800 39000 |} ] |}.

Definition earth_engine (q : catalogue_query) : ee_reply :=
  EEScenes [cloudy_scene; clear_scene].

Definition ee_not_initialized : string :=
  "Earth Engine client library not initialized. See http://goo.gle/ee-auth.".

Definition start (e : environ) : server := initialize ee_Initialize e.

Definition green (e : environ) (city : string) : outcome json :=
  get_green_cover geocoder earth_engine ee_not_initialized (start e) city.

Definition heat (e : environ) (city : string) : outcome json :=
  get_heat_map geocoder earth_engine ee_not_initialized (start e) city.

Definition serve (e : environ) (path : string) : http_response :=
  app geocoder earth_engine ee_not_initialized (start e) path.

(** The dashboard: a session that shows an earlier result for Paris, and
    three backends. *)
Definition showing_paris : App.session_state :=
  {| App.city := "Paris";
     App.analysis_type := "Green Cover";
     App.map_data := JObj [("lat", JNum 48.8566); ("lon", JNum 2.3522)];
     App.metrics := green_response "Paris" (JNum 48.8566) (JNum 2.3522) (1400 # 4000);
     App.error := JNull |}.

Definition refusing (url : string) : App.fetch_result :=
  App.ConnectionError "Connection refused".

Definition answering_404 (url : string) : App.fetch_result :=
  App.Response 404 "Not Found" (inr (JObj [("detail", JStr "City 'Atlantis' not found.")])).

Definition answering_300 (url : string) : App.fetch_result :=
  App.Response 300 "Multiple Choices" (inr (JObj [("message", JStr "choose one")])).

Definition submit (city kind : string) : App.user_input :=
  {| App.city_input := city; App.submitted := true; App.radio := kind |}.

(** Collaborators that misbehave. *)
Definition unreachable_geocoder (url : string) : http_reply :=
  Unreachable "Connection refused".

Definition busy_geocoder (url : string) : http_reply :=
  Reply 503 (inl "Expecting value: line 1 column 1 (char 0)").

(** A first result without [lat], followed by a complete one. *)
Definition sloppy_geocoder (url : string) : http_reply :=
  Reply 200 (inr (JList [ JObj [("name", JStr "Paris"); ("lon", JNum 2.3522)];
                          JObj [("name", JStr "Paris"); ("lat", JNum 33.6609);
                                ("lon", JNum (-95.5555))] ])).

Definition failing_earth_engine (q : catalogue_query) : ee_reply :=
  EEError "Computation timed out.".

(** A clear scene whose only pixel over the region is masked. *)
Definition masked_scene : scene :=
  {| property := fun _ => Some 1;
     pixels := fun _ => [ {| weight := 0; band := bands 2700 1300 44000 |} ] |}.

Definition masked_earth_engine (q : catalogue_query) : ee_reply :=
  EEScenes [masked_scene].



Definition answering_error_key (url : string) : App.fetch_result :=
  App.Response 200 "OK" (inr (JObj [("error", JStr "quota exceeded")])).

Definition answering_null (url : string) : App.fetch_result :=
  App.Response 200 "OK" (inr JNull).

End Demo.

(* ================================================================== *)
(** * Facts about the Python layer *)
(* ================================================================== *)

Section PyFacts.

Open Scope string_scope.

Lemma prefix_app (s t : string) : prefix s (s ++ t) = true.
Proof.
  induction s as [|c s IH]; simpl.
  - now destruct t.
  - destruct (ascii_dec c c) as [_|ne]; [exact IH | now elim ne].
Qed.

Lemma contains_prefix (s t : string) : prefix s t = true -> contains s t = true.
Proof. intro H. destruct t; cbn [contains]; rewrite H; reflexivity. Qed.

Lemma contains_app (before s after : string) :
  contains s (before ++ s ++ after) = true.
Proof.
  induction before as [|c before IH].
  - apply contains_prefix. exact (prefix_app s after).
  - change (contains s (String c (before ++ s ++ after)) = true).
    cbn [contains].
    destruct (prefix s (String c (before ++ s ++ after))); [reflexivity | exact IH].
Qed.







End PyFacts.

(* ================================================================== *)
(** * Facts about the gateway *)
(* ================================================================== *)

Section ImageAlgebra.

Import Main.
Open Scope Q_scope.








(** Lines 136-139 apply [lst_celsius] to every pixel. *)
Lemma lst_pixelwise (img : band_image) :
  subtract 273.15 (add 149.0 (multiply 0.00341802 img))
  = map (fun p => (fst p, lst_celsius (snd p))) img.
Proof.
  unfold subtract, add, multiply. rewrite !map_map. reflexivity.
Qed.


End ImageAlgebra.

Section GatewayFacts.

Import Main.
Open Scope string_scope.
Open Scope Z_scope.

Variable geocoder : string -> http_reply.
Variable earth_engine : catalogue_query -> ee_reply.
Variable ee_not_initialized : string.
Variable srv : server.

Let coords := get_city_coords geocoder srv.
Let green := get_green_cover geocoder earth_engine ee_not_initialized srv.
Let heat := get_heat_map geocoder earth_engine ee_not_initialized srv.

(** Geocoding ends in coordinates, in one of its three [HTTPException]s, or
    in some other exception. *)
Lemma get_city_coords_raises (city : string) (e : exn) :
  coords city = Raise e ->
  e = HTTPException 500 "OpenWeatherMap API key is not configured on the server."
  \/ e = HTTPException 500 "Failed to connect to Geocoding service."
  \/ e = HTTPException 404 ("City '" ++ city ++ "' not found.")
  \/ exists message, e = Exception message.
Proof.
  unfold coords, get_city_coords.
  destruct (OPENWEATHER_API_KEY (env srv)) as [key|]; [|intros [= <-]; auto].
  destruct (negb (truthy_str (Some key))); [intros [= <-]; auto|].
  destruct (geocoder (geo_url city key)) as [message|status body].
  { intros [= <-]; eauto 6. }
  destruct (negb (status =? 200)); [intros [= <-]; auto|].
  destruct body as [message|data]; [intros [= <-]; eauto 6|].
  destruct (negb (truthy data)); [intros [= <-]; auto|].
  unfold bind.
  destruct (getitem_0 data) as [place|e0] eqn:E0.
  - destruct (getitem "lat" place) as [lat|e1] eqn:E1.
    + destruct (getitem "lon" place) as [lon|e2] eqn:E2; [discriminate|].
      intros [= <-]. right; right; right.
      destruct place; simpl in E2; try (injection E2 as <-; eauto).
      destruct (assoc "lon" fields); [discriminate | injection E2 as <-; eauto].
    + intros [= <-]. right; right; right.
      destruct place; simpl in E1; try (injection E1 as <-; eauto).
      destruct (assoc "lat" fields); [discriminate | injection E1 as <-; eauto].
  - intros [= <-]. right; right; right.
    destruct data as [| | | [|] | [|] | ]; simpl in E0;
      try discriminate; injection E0 as <-; eauto.
Qed.

(** Every way [get_green_cover] can end. *)
Lemma get_green_cover_cases (city : string) :
  (exists lat lon scenes image avg_ndvi,
      coords city = Return (lat, lon)
      /\ ee_initialized srv = true
      /\ earth_engine (sentinel2 {| lon := lon; lat := lat; radius := 2000 |}) = EEScenes scenes
      /\ first (sort "CLOUDY_PIXEL_PERCENTAGE"
                  (filter_lt "CLOUDY_PIXEL_PERCENTAGE" 20 scenes)) = Return image
      /\ reduceRegion_mean (normalizedDifference "B8" "B4" 10 image) = Some avg_ndvi
      /\ green city = Return (green_response city lat lon avg_ndvi))
  \/ (exists status detail,
         green city = Raise (HTTPException status detail) /\ (status = 404 \/ status = 500)).
Proof.
  unfold green, get_green_cover.
  destruct (get_city_coords geocoder srv city) as [[lat lon]|e] eqn:C.
  - cbn [bind]. unfold buffered_point.
    destruct (ee_initialized srv) eqn:I; [|right; cbn; eauto].
    cbn [bind]. unfold ImageCollection.
    destruct (earth_engine _) as [message|scenes] eqn:EE; [right; cbn; eauto|].
    cbn [bind].
    destruct (sort "CLOUDY_PIXEL_PERCENTAGE"
                (filter_lt "CLOUDY_PIXEL_PERCENTAGE" 20 scenes)) as [|image rest] eqn:S;
      [right; cbn; eauto|].
    cbn [first bind].
    destruct (reduceRegion_mean (normalizedDifference "B8" "B4" 10 image)) as [avg|] eqn:R;
      [|right; cbn; eauto].
    left. exists lat, lon, scenes, image, avg.
    rewrite S. cbn. auto 10.
  - right. apply get_city_coords_raises in C.
    destruct C as [->|[->|[->|[message ->]]]]; cbn; eauto.
Qed.


(** A successful answer is one of the two dicts. *)
Lemma get_green_cover_Return (city : string) (response : json) :
  green city = Return response ->
  exists lat lon scenes image avg_ndvi,
    coords city = Return (lat, lon)
    /\ earth_engine (sentinel2 {| lon := lon; lat := lat; radius := 2000 |}) = EEScenes scenes
    /\ first (sort "CLOUDY_PIXEL_PERCENTAGE"
                (filter_lt "CLOUDY_PIXEL_PERCENTAGE" 20 scenes)) = Return image
    /\ reduceRegion_mean (normalizedDifference "B8" "B4" 10 image) = Some avg_ndvi
    /\ response = green_response city lat lon avg_ndvi.
Proof.
  intro H.
  destruct (get_green_cover_cases city)
    as [(lat & lon & scenes & image & avg & C & _ & E & F & R & G)|(status & detail & G & _)];
    rewrite G in H; [|discriminate].
  injection H as <-. eauto 10.
Qed.






(** ** Routing *)

Lemma contains_slash_cons (c : ascii) (segment : string) :
  contains "/" (String c segment) = false ->
  Ascii.eqb c "/" = false /\ contains "/" segment = false.
Proof.
  cbn [contains prefix].
  destruct (ascii_dec "/" c) as [<-|ne].
  - destruct segment; discriminate.
  - intro H. split; [|exact H].
    apply Ascii.eqb_neq. intros ->. now apply ne.
Qed.

Lemma split_slash_segment (segment tail : string) :
  contains "/" segment = false ->
  split_slash (segment ++ String "/" tail) = segment :: split_slash tail.
Proof.
  induction segment as [|c segment IH]; intro H.
  - reflexivity.
  - apply contains_slash_cons in H. destruct H as [ne H].
    cbn [append split_slash]. rewrite ne, (IH H). reflexivity.
Qed.

Lemma match_route_green (city : string) :
  contains "/" city = false -> city <> "" ->
  match_route ("/city/" ++ city ++ "/green") = Some (CityGreen city).
Proof.
  intros H ne. unfold match_route.
  change ("/city/" ++ city ++ "/green")
    with (String "/" (String "c" (String "i" (String "t" (String "y"
            (String "/" (city ++ String "/" "green"))))))).
  cbn [existsb framework_paths String.eqb Ascii.eqb Bool.eqb orb andb].
  cbn [split_slash Ascii.eqb Bool.eqb andb].
  rewrite (split_slash_segment city "green" H).
  cbn. apply String.eqb_neq in ne. rewrite ne. reflexivity.
Qed.

Lemma match_route_heatmap (city : string) :
  contains "/" city = false -> city <> "" ->
  match_route ("/city/" ++ city ++ "/heatmap") = Some (CityHeatmap city).
Proof.
  intros H ne. unfold match_route.
  change ("/city/" ++ city ++ "/heatmap")
    with (String "/" (String "c" (String "i" (String "t" (String "y"
            (String "/" (city ++ String "/" "heatmap"))))))).
  cbn [existsb framework_paths String.eqb Ascii.eqb Bool.eqb orb andb].
  cbn [split_slash Ascii.eqb Bool.eqb andb].
  rewrite (split_slash_segment city "heatmap" H).
  cbn. apply String.eqb_neq in ne. rewrite ne. reflexivity.
Qed.

(** ** Geocoding that finds nothing *)

Lemma get_city_coords_empty (city key : string) (data : json) :
  OPENWEATHER_API_KEY (env srv) = Some key -> key <> "" ->
  geocoder (geo_url city key) = Reply 200 (inr data) ->
  truthy data = false ->
  coords city = Raise (HTTPException 404 ("City '" ++ city ++ "' not found.")).
Proof.
  intros K ne G empty.
  unfold coords, get_city_coords. rewrite K.
  apply String.eqb_neq in ne. cbn [truthy_str]. rewrite ne. cbn [negb].
  rewrite G. cbn [Z.eqb Pos.eqb negb]. rewrite empty. reflexivity.
Qed.

Lemma endpoints_reraise (city : string) (status : Z) (detail : string) :
  coords city = Raise (HTTPException status detail) ->
  green city = Raise (HTTPException status detail)
  /\ heat city = Raise (HTTPException status detail).
Proof.
  unfold coords, green, heat, get_green_cover, get_heat_map.
  intros ->. split; reflexivity.
Qed.

Let serve := app geocoder earth_engine ee_not_initialized srv.

(** C4.  A request for [/city/<city>/green] or [/city/<city>/heatmap] is
    answered 404, with a detail that contains the city name, and so never
    200, when the city name is empty (no route matches an empty path
    segment) or when the geocoder, asked with the configured key, answers
    with an empty result set. *)
Theorem unknown_or_empty_city_not_found (city key : string) (data : json) :
  city = ""
  \/ (contains "/" city = false
      /\ OPENWEATHER_API_KEY (env srv) = Some key /\ key <> ""
      /\ geocoder (geo_url city key) = Reply 200 (inr data)
      /\ truthy data = false) ->
  exists detail,
    serve ("/city/" ++ city ++ "/green") = JSONResponse 404 (JObj [("detail", JStr detail)])
    /\ serve ("/city/" ++ city ++ "/heatmap")
       = JSONResponse 404 (JObj [("detail", JStr detail)])
    /\ contains city detail = true
    /\ status_of (serve ("/city/" ++ city ++ "/green")) <> 200
    /\ status_of (serve ("/city/" ++ city ++ "/heatmap")) <> 200.
Proof.
  intro H.
  assert (done : forall detail path,
             serve path = JSONResponse 404 (JObj [("detail", JStr detail)]) ->
             status_of (serve path) <> 200).
  { intros detail path ->. discriminate. }
  destruct (string_dec city "") as [->|ne].
  - exists "Not Found".
    assert (G : serve "/city//green" = JSONResponse 404 (JObj [("detail", JStr "Not Found")]))
      by reflexivity.
    assert (M : serve "/city//heatmap" = JSONResponse 404 (JObj [("detail", JStr "Not Found")]))
      by reflexivity.
    cbn [append]. repeat split; eauto.
  - destruct H as [->|(slash & K & key_ne & G & empty)]; [now elim ne|].
    pose proof (@get_city_coords_empty city key data K key_ne G empty) as C.
    destruct (@endpoints_reraise city _ _ C) as [Hg Hh].
    exists ("City '" ++ city ++ "' not found.").
    assert (G' : serve ("/city/" ++ city ++ "/green")
                 = JSONResponse 404 (JObj [("detail", JStr ("City '" ++ city ++ "' not found."))])).
    { unfold serve, app. rewrite (@match_route_green city slash ne).
      fold green. rewrite Hg. reflexivity. }
    assert (M' : serve ("/city/" ++ city ++ "/heatmap")
                 = JSONResponse 404 (JObj [("detail", JStr ("City '" ++ city ++ "' not found."))])).
    { unfold serve, app. rewrite (@match_route_heatmap city slash ne).
      fold heat. rewrite Hh. reflexivity. }
    repeat split; eauto.
    exact (contains_app "City '" city "' not found.").
Qed.

End GatewayFacts.

Section Startup.

Import Main.
Open Scope string_scope.

Variable ee_Initialize : string -> outcome unit.
Variable geocoder : string -> http_reply.
Variable earth_engine : catalogue_query -> ee_reply.
Variable ee_not_initialized : string.
Variable e : environ.

Let srv := initialize ee_Initialize e.
Let green := get_green_cover geocoder earth_engine ee_not_initialized srv.
Let heat := get_heat_map geocoder earth_engine ee_not_initialized srv.





End Startup.

Section Transforms.

Open Scope Q_scope.

(** On every raw value a sensor can report (none is negative) the helper's
    scale gives more than the endpoint's conversion. *)
Lemma avg_temp_above_lst_celsius (v : Q) :
  0 <= v -> Main.lst_celsius v < GeeData.avg_temp v.
Proof.
  intro H. unfold Main.lst_celsius, GeeData.avg_temp.
  assert (E : v / 10 == v * (1 # 10)) by (field; discriminate).
  rewrite E. lra.
Qed.

(** C8.  The helper's scalar transform ([get_heatmap], [lst / 10]) and the
    endpoint's ([get_heat_map], [v * 0.00341802 + 149.0 - 273.15]) are not
    the same function of the raw value: they differ at [v = 0]. *)
Theorem heatmap_transforms_disagree :
  (exists v : Q,
      GeeData.get_heatmap v = JObj [("avg_temp", JNum (GeeData.avg_temp v))]
      /\ GeeData.avg_temp v == v / 10
      /\ Main.lst_celsius v == v * 0.00341802 + 149.0 - 273.15
      /\ ~ GeeData.avg_temp v == Main.lst_celsius v)
  /\ ~ (forall v : Q, GeeData.avg_temp v == Main.lst_celsius v).
Proof.
  split.
  - exists 0. repeat split; try reflexivity. discriminate.
  - intro H. specialize (H 0). discriminate H.
Qed.

End Transforms.

(* ================================================================== *)
(** * The gateway, run on the concrete deployment *)
(* ================================================================== *)

Section GatewayRuns.

Import Main.
Open Scope string_scope.

(** The green-cover answer for Paris: NDVI 0.35, cover 67.5. *)
Lemma green_paris :
  Demo.green Demo.configured "Paris"
  = Return (green_response "Paris" (JNum 48.8566) (JNum 2.3522) (1400 # 4000)).
Proof. reflexivity. Qed.

Lemma heat_paris :
  Demo.heat Demo.configured "Paris"
  = Return (heat_response "Paris" (JNum 48.8566) (JNum 2.3522) 26.24288000000).
Proof. vm_compute. reflexivity. Qed.




Lemma unknown_or_empty_city_not_found_witness :
  (exists detail,
      Demo.serve Demo.configured "/city/Atlantis/green"
      = JSONResponse 404 (JObj [("detail", JStr detail)])
      /\ Demo.serve Demo.configured "/city/Atlantis/heatmap"
         = JSONResponse 404 (JObj [("detail", JStr detail)])
      /\ contains "Atlantis" detail = true
      /\ status_of (Demo.serve Demo.configured "/city/Atlantis/green") <> 200%Z
      /\ status_of (Demo.serve Demo.configured "/city/Atlantis/heatmap") <> 200%Z)
  /\ (exists detail,
         Demo.serve Demo.configured "/city//green"
         = JSONResponse 404 (JObj [("detail", JStr detail)])
         /\ Demo.serve Demo.configured "/city//heatmap"
            = JSONResponse 404 (JObj [("detail", JStr detail)])
         /\ contains "" detail = true
         /\ status_of (Demo.serve Demo.configured "/city//green") <> 200%Z
         /\ status_of (Demo.serve Demo.configured "/city//heatmap") <> 200%Z).
Proof.
  split.
  - apply (@unknown_or_empty_city_not_found Demo.geocoder Demo.earth_engine
             Demo.ee_not_initialized (Demo.start Demo.configured)
             "Atlantis" "k3y" (JList [])).
    right. repeat split; try reflexivity. discriminate.
  - apply (@unknown_or_empty_city_not_found Demo.geocoder Demo.earth_engine
             Demo.ee_not_initialized (Demo.start Demo.configured)
             "" "k3y" (JList [])).
    left. reflexivity.
Defined.




End GatewayRuns.

(* ================================================================== *)
(** * Facts about the dashboard *)
(* ================================================================== *)

Section ScriptFrames.

Import App.
Open Scope string_scope.

Lemma only_draws_ret (A : Type) (a : A) : only_draws (ret a).
Proof. intro p. split; reflexivity. Qed.

Lemma only_draws_st (w : widget) : only_draws (st w).
Proof. intro p. split; reflexivity. Qed.

Lemma only_draws_stop (A : Type) : only_draws (@stop A).
Proof. intro p. split; reflexivity. Qed.

Lemma only_draws_uncaught (A : Type) (message : string) : only_draws (@uncaught A message).
Proof. intro p. split; reflexivity. Qed.

Lemma only_draws_get_session : only_draws get_session.
Proof. intro p. split; reflexivity. Qed.

Lemma only_draws_eval (A : Type) (o : outcome A) : only_draws (eval o).
Proof. destruct o; intro p; split; reflexivity. Qed.

Lemma only_draws_seq (A B : Type) (m : script A) (k : A -> script B) :
  only_draws m -> (forall a, only_draws (k a)) -> only_draws (seq m k).
Proof.
  intros Hm Hk p. unfold seq.
  destruct (Hm p) as [S R].
  destruct (m p) as [a p'|h p']; cbn [page_after] in *.
  - destruct (Hk a p') as [S' R']. rewrite S', R'. auto.
  - auto.
Qed.

Lemma seq_Next (A B : Type) (m : script A) (k : A -> script B) (p p' : page) (a : A) :
  m p = Next a p' -> seq m k p = k a p'.
Proof. intro H. unfold seq. rewrite H. reflexivity. Qed.

Lemma seq_Halt (A B : Type) (m : script A) (k : A -> script B) (p p' : page) (h : halt) :
  m p = Halt h p' -> seq m k p = Halt h p'.
Proof. intro H. unfold seq. rewrite H. reflexivity. Qed.

(** What precedes a drawing-only tail decides the session and the requests. *)
Lemma seq_only_draws_session (A B : Type) (m : script A) (k : A -> script B) (p : page) :
  (forall a, only_draws (k a)) ->
  session (page_after (seq m k p)) = session (page_after (m p)).
Proof.
  intro Hk. unfold seq.
  destruct (m p) as [a p'|h p']; cbn [page_after].
  - apply Hk.
  - reflexivity.
Qed.

Lemma seq_only_draws_requested (A B : Type) (m : script A) (k : A -> script B) (p : page) :
  (forall a, only_draws (k a)) ->
  requested (page_after (seq m k p)) = requested (page_after (m p)).
Proof.
  intro Hk. unfold seq.
  destruct (m p) as [a p'|h p']; cbn [page_after].
  - apply Hk.
  - reflexivity.
Qed.

End ScriptFrames.

Create HintDb draws.

#[local] Hint Resolve only_draws_ret only_draws_st only_draws_stop only_draws_uncaught
  only_draws_get_session only_draws_eval : draws.

Ltac draws :=
  repeat first
    [ apply only_draws_seq; [|intro]
    | match goal with
      | |- App.only_draws (if ?c then _ else _) => destruct c
      end
    | solve [auto with draws] ].

Section DashboardFacts.

Import App.
Open Scope string_scope.

Variable backend : string -> fetch_result.

Lemma main_page_title_only_draws : only_draws main_page_title.
Proof. unfold main_page_title. draws. Qed.

Lemma error_banner_only_draws : only_draws error_banner.
Proof. unfold error_banner. draws. Qed.

Lemma metrics_column_only_draws : only_draws metrics_column.
Proof. unfold metrics_column. draws. Qed.

Lemma map_column_only_draws : only_draws map_column.
Proof. unfold map_column. draws. Qed.

(** Everything below the data-fetching block (lines 99-160). *)
Lemma main_page_only_draws :
  only_draws (seq main_page_title (fun _ =>
              seq error_banner (fun _ =>
              seq metrics_column (fun _ => map_column)))).
Proof.
  apply only_draws_seq; [apply main_page_title_only_draws | intro].
  apply only_draws_seq; [apply error_banner_only_draws | intro].
  apply only_draws_seq; [apply metrics_column_only_draws | intro].
  apply map_column_only_draws.
Qed.

Lemma data_fetching_skipped (input : user_input) :
  city_input input = "" -> data_fetching backend input = ret tt.
Proof.
  intro H. unfold data_fetching. rewrite H. cbn [String.eqb negb].
  rewrite andb_false_r. reflexivity.
Qed.

(** C10.  Submitting the form with no city text issues no request and
    leaves [city], [metrics], [map_data] and [error] of the session as they
    were when the run began. *)
Theorem empty_city_submission_is_noop
        (previous : option session_state) (submitted : bool) (radio : string) :
  let before := App.initialize previous in
  let after := run_script backend previous
                 {| city_input := ""; submitted := submitted; radio := radio |} in
  fetched after = []
  /\ city (final after) = city before
  /\ metrics (final after) = metrics before
  /\ map_data (final after) = map_data before
  /\ error (final after) = error before.
Proof.
  intros before after.
  assert (tail : forall a : unit,
             only_draws
               (seq (data_fetching backend
                       {| city_input := ""; submitted := submitted; radio := radio |})
                    (fun _ => seq main_page_title (fun _ =>
                              seq error_banner (fun _ =>
                              seq metrics_column (fun _ => map_column)))))).
  { intros _. rewrite data_fetching_skipped by reflexivity.
    apply only_draws_seq; [apply only_draws_ret | intro; apply main_page_only_draws]. }
  unfold after, run_script, dashboard. cbn [final fetched].
  rewrite (seq_only_draws_session _ _ _ tail), (seq_only_draws_requested _ _ _ tail).
  repeat split; reflexivity.
Qed.

(** ** The phases of the script, one by one *)

Lemma sidebar_run (input : user_input) (p : page) :
  sidebar input p
  = Next tt
      (with_session (set_analysis_type (radio input))
         (draw (Radio "Select an Analysis" analyses)
            (draw (FormSubmitButton "Analyze City")
               (draw (TextInput "Enter a city:" (city (session p)))
                  (draw (Info "Real-time environmental insights for global cities, powered by Google Earth Engine.")
                     (draw (Title "🌍 HealthyCity Dashboard") p)))))).
Proof. reflexivity. Qed.

Lemma endpoint_map_get_other (analysis_type : string) :
  analysis_type <> "Green Cover" -> analysis_type <> "Heat Map" ->
  endpoint_map_get analysis_type = None.
Proof.
  intros green heat.
  apply String.eqb_neq in green. apply String.eqb_neq in heat.
  unfold endpoint_map_get, endpoint_map. cbn [find fst].
  rewrite green, heat. reflexivity.
Qed.

(** [get_city_data] with no endpoint for the selection: no request. *)
Lemma get_city_data_other (city analysis_type : string) :
  endpoint_map_get analysis_type = None ->
  get_city_data backend city analysis_type
  = ret (error_dict "Invalid analysis type selected.").
Proof.
  intro E. unfold get_city_data. rewrite E. reflexivity.
Qed.

(** The fetching block when the selection has no endpoint: whatever the
    form says, nothing is requested and no result is drawn. *)
Lemma data_fetching_other (input : user_input) (p : page) :
  endpoint_map_get (analysis_type (session p)) = None ->
  exists p',
    data_fetching backend input p = Next tt p'
    /\ analysis_type (session p') = analysis_type (session p)
    /\ requested p' = requested p
    /\ filter shows_result (screen p') = filter shows_result (screen p).
Proof.
  intro E. unfold data_fetching.
  destruct (submitted input && negb (String.eqb (city_input input) "")).
  - eexists. split.
    + do 6 (erewrite seq_Next by reflexivity; cbv beta).
      rewrite (@get_city_data_other _ _ E).
      reflexivity.
    + cbn [session screen requested draw with_session analysis_type
             set_error set_metrics set_map_data set_city].
      rewrite filter_app, app_nil_r. auto.
  - exists p. auto.
Qed.

Lemma main_page_title_other (p : page) :
  analysis_type (session p) <> "Green Cover" ->
  analysis_type (session p) <> "Heat Map" ->
  main_page_title p
  = Halt Stop
      (draw (Warning "This feature is under construction. Please check back later!")
         (draw (Header ("📊 " ++ analysis_type (session p))) p)).
Proof.
  intros green heat.
  apply String.eqb_neq in green. apply String.eqb_neq in heat.
  unfold main_page_title.
  erewrite seq_Next by reflexivity. cbv beta.
  rewrite green, heat. reflexivity.
Qed.

Lemma main_page_title_green (p : page) :
  analysis_type (session p) = "Green Cover" ->
  main_page_title p
  = Next tt
      (draw (Markdown "Analyzing Normalized Difference Vegetation Index (NDVI) to assess vegetation health and coverage using Sentinel-2 satellite imagery.")
         (draw (Header "🌳 Urban Green Cover") p)).
Proof.
  intro H. unfold main_page_title.
  erewrite seq_Next by reflexivity. cbv beta.
  rewrite H. reflexivity.
Qed.

Lemma main_page_title_heat (p : page) :
  analysis_type (session p) = "Heat Map" ->
  main_page_title p
  = Next tt
      (draw (Markdown "Analyzing Land Surface Temperature (LST) to identify heat islands using thermal bands from Landsat 8 satellite.")
         (draw (Header "🔥 Urban Heat Map") p)).
Proof.
  intro H. unfold main_page_title.
  erewrite seq_Next by reflexivity. cbv beta.
  rewrite H. reflexivity.
Qed.

(** On the two pages that exist, the title block draws a header and a line
    of text and goes on. *)
Lemma main_page_title_drawn (p : page) :
  analysis_type (session p) = "Green Cover" \/ analysis_type (session p) = "Heat Map" ->
  exists header text,
    main_page_title p = Next tt (draw (Markdown text) (draw (Header header) p)).
Proof.
  intros [green|heat]; eexists; eexists.
  - apply main_page_title_green. exact green.
  - apply main_page_title_heat. exact heat.
Qed.

Lemma in_draw (w : widget) (p : page) : In w (screen (draw w p)).
Proof. apply in_or_app. right. left. reflexivity. Qed.

Lemma in_draw_before (w w' : widget) (p : page) :
  In w (screen p) -> In w (screen (draw w' p)).
Proof. intro H. apply in_or_app. left. exact H. Qed.

Lemma error_banner_shown (p : page) (message : string) :
  error (session p) = JStr message -> message <> "" ->
  error_banner p = Next tt (draw (Error (JStr message)) p).
Proof.
  intros H ne. apply String.eqb_neq in ne.
  unfold error_banner.
  erewrite seq_Next by reflexivity. cbv beta.
  rewrite H. cbn [truthy]. rewrite ne. reflexivity.
Qed.

Lemma metrics_column_empty (p : page) :
  metrics (session p) = JNull ->
  metrics_column p
  = Next tt (draw (Info "Search for a city to see its metrics.")
               (draw (Subheader "Metrics") p)).
Proof.
  intro H. unfold metrics_column.
  do 2 (erewrite seq_Next by reflexivity; cbv beta).
  cbn [session draw]. rewrite H. reflexivity.
Qed.

Lemma map_column_empty (p : page) :
  map_data (session p) = JNull ->
  map_column p
  = Next tt (draw (Info "Map will be displayed here once data is loaded.")
               (draw (Subheader "City Location") p)).
Proof.
  intro H. unfold map_column.
  do 2 (erewrite seq_Next by reflexivity; cbv beta).
  cbn [session draw]. rewrite H. reflexivity.
Qed.

(** C6.  With any analysis other than "Green Cover" and "Heat Map"
    selected, a run - a submission included - requests nothing, draws the
    "under construction" warning and stops there, before any metric or map
    is drawn. *)
Theorem other_analysis_never_fetches (previous : option session_state) (input : user_input) :
  radio input <> "Green Cover" ->
  radio input <> "Heat Map" ->
  let r := run_script backend previous input in
  fetched r = []
  /\ ended r = Stopped
  /\ In (Warning "This feature is under construction. Please check back later!") (drawn r)
  /\ filter shows_result (drawn r) = [].
Proof.
  intros green heat r.
  set (start := {| session := App.initialize previous; screen := []; requested := [] |}).
  destruct (@data_fetching_other input
              (with_session (set_analysis_type (radio input))
                 (draw (Radio "Select an Analysis" analyses)
                    (draw (FormSubmitButton "Analyze City")
                       (draw (TextInput "Enter a city:" (city (session start)))
                          (draw (Info "Real-time environmental insights for global cities, powered by Google Earth Engine.")
                             (draw (Title "🌍 HealthyCity Dashboard") start)))))))
    as (p' & fetching & kind & nothing_sent & nothing_shown).
  { exact (endpoint_map_get_other green heat). }
  cbn [session with_session analysis_type set_analysis_type] in kind.
  assert (result : dashboard backend input start
                   = Halt Stop
                       (draw (Warning "This feature is under construction. Please check back later!")
                          (draw (Header ("📊 " ++ analysis_type (session p'))) p'))).
  { unfold dashboard.
    erewrite seq_Next by exact (sidebar_run input start).
    erewrite seq_Next by exact fetching.
    apply seq_Halt. apply main_page_title_other; rewrite kind; assumption. }
  unfold r, run_script. fold start. cbv zeta. rewrite result.
  cbn [final drawn fetched ended page_after ending_of draw session screen requested].
  repeat split.
  - exact nothing_sent.
  - apply in_or_app. right. left. reflexivity.
  - rewrite !filter_app, nothing_shown. reflexivity.
Qed.

(** [get_city_data] on a failed request: one request, and a dict that holds
    nothing but a non-empty message under ["error"]. *)
Lemma get_city_data_failure (city analysis_type endpoint : string) :
  endpoint_map_get analysis_type = Some endpoint ->
  endpoint <> "" ->
  let url := API_BASE_URL ++ "/city/" ++ city ++ "/" ++ endpoint in
  ((exists m, backend url = ConnectionError m)
   \/ (exists m, backend url = Timeout m)
   \/ (exists status reason body,
          backend url = Response status reason body /\ (400 <= status < 600)%Z)
   \/ (exists status reason m, backend url = Response status reason (inl m))) ->
  exists message,
    message <> ""
    /\ forall p,
        get_city_data backend city analysis_type p = Next (error_dict message) (sent url p).
Proof.
  intros E ne url failure.
  unfold get_city_data. rewrite E.
  apply String.eqb_neq in ne. cbn [truthy_str]. rewrite ne. cbn [negb].
  fold url. unfold seq, requests_get, ret.
  destruct failure as [(m & ->)|[(m & ->)|[(status & reason & body & -> & lo & hi)
                                          |(status & reason & m & ->)]]].
  - eexists. split; [|reflexivity]. discriminate.
  - eexists. split; [|reflexivity]. discriminate.
  - apply Z.leb_le in lo. apply Z.ltb_lt in hi. rewrite lo, hi. cbn [andb].
    eexists. split; [|reflexivity]. discriminate.
  - destruct ((400 <=? status)%Z && (status <? 600)%Z);
      (eexists; split; [|reflexivity]; discriminate).
Qed.

(** The fetching block on a failed request. *)
Lemma data_fetching_failure (input : user_input) (p : page) (message url : string) :
  submitted input = true ->
  city_input input <> "" ->
  (forall q,
      get_city_data backend (city_input input) (analysis_type (session p)) q
      = Next (error_dict message) (sent url q)) ->
  data_fetching backend input p
  = Next tt
      (with_session (set_error (JStr message))
         (sent url
            (draw (Spinner ("Analyzing " ++ analysis_type (session p) ++ " for "
                              ++ city_input input ++ "... This may take a moment."))
               (with_session (set_error JNull)
                  (with_session (set_metrics JNull)
                     (with_session (set_map_data JNull)
                        (with_session (set_city (city_input input)) p))))))).
Proof.
  intros sub ne G. apply String.eqb_neq in ne.
  unfold data_fetching. rewrite sub, ne. cbn [negb andb].
  do 6 (erewrite seq_Next by reflexivity; cbv beta).
  erewrite seq_Next by apply G. cbv beta.
  reflexivity.
Qed.

(** C7 (as amended).  A submission whose request fails - no connection, a
    timeout, a 4xx or 5xx status, a body that is not JSON - leaves exactly
    one non-empty message in [error] and neither metrics nor map data,
    whatever the session held before; the run completes, draws that one
    error banner, the two "no data" placeholders, and no metric or map. *)
Theorem failed_submission_shows_one_error
        (previous : option session_state) (input : user_input) (endpoint : string) :
  submitted input = true ->
  city_input input <> "" ->
  (radio input = "Green Cover" /\ endpoint = "green")
  \/ (radio input = "Heat Map" /\ endpoint = "heatmap") ->
  let url := API_BASE_URL ++ "/city/" ++ city_input input ++ "/" ++ endpoint in
  ((exists m, backend url = ConnectionError m)
   \/ (exists m, backend url = Timeout m)
   \/ (exists status reason body,
          backend url = Response status reason body /\ (400 <= status < 600)%Z)
   \/ (exists status reason m, backend url = Response status reason (inl m))) ->
  let r := run_script backend previous input in
  exists message,
    error (final r) = JStr message
    /\ message <> ""
    /\ metrics (final r) = JNull
    /\ map_data (final r) = JNull
    /\ city (final r) = city_input input
    /\ fetched r = [url]
    /\ ended r = Completed
    /\ filter is_error_banner (drawn r) = [Error (JStr message)]
    /\ filter shows_result (drawn r) = []
    /\ In (Info "Search for a city to see its metrics.") (drawn r)
    /\ In (Info "Map will be displayed here once data is loaded.") (drawn r).
Proof.
  intros sub city_ne kind url failure r.
  assert (E : endpoint_map_get (radio input) = Some endpoint /\ endpoint <> "").
  { destruct kind as [[-> ->]|[-> ->]]; split; (reflexivity || discriminate). }
  destruct E as [E endpoint_ne].
  destruct (@get_city_data_failure (city_input input) (radio input) endpoint
              E endpoint_ne failure)
    as (message & message_ne & G).
  exists message.
  set (start := {| session := App.initialize previous; screen := []; requested := [] |}).
  set (p1 := with_session (set_analysis_type (radio input))
               (draw (Radio "Select an Analysis" analyses)
                  (draw (FormSubmitButton "Analyze City")
                     (draw (TextInput "Enter a city:" (city (session start)))
                        (draw (Info "Real-time environmental insights for global cities, powered by Google Earth Engine.")
                           (draw (Title "🌍 HealthyCity Dashboard") start)))))).
  set (p2 := with_session (set_error (JStr message))
               (sent url
                  (draw (Spinner ("Analyzing " ++ analysis_type (session p1) ++ " for "
                                    ++ city_input input ++ "... This may take a moment."))
                     (with_session (set_error JNull)
                        (with_session (set_metrics JNull)
                           (with_session (set_map_data JNull)
                              (with_session (set_city (city_input input)) p1))))))).
  assert (fetching : data_fetching backend input p1 = Next tt p2).
  { apply data_fetching_failure; [exact sub | exact city_ne | exact G]. }
  destruct (@main_page_title_drawn p2) as (header & text & titled).
  { destruct kind as [[green _]|[heat _]]; [left | right]; assumption. }
  set (p3 := draw (Markdown text) (draw (Header header) p2)) in titled.
  set (p4 := draw (Error (JStr message)) p3).
  set (p5 := draw (Info "Search for a city to see its metrics.")
               (draw (Subheader "Metrics") p4)).
  set (p6 := draw (Info "Map will be displayed here once data is loaded.")
               (draw (Subheader "City Location") p5)).
  assert (result : dashboard backend input start = Next tt p6).
  { unfold dashboard.
    erewrite seq_Next by exact (sidebar_run input start).
    erewrite seq_Next by exact fetching.
    erewrite seq_Next by exact titled.
    erewrite seq_Next by (apply (@error_banner_shown p3 message); [reflexivity | exact message_ne]).
    erewrite seq_Next by (apply (@metrics_column_empty p4); reflexivity).
    apply (@map_column_empty p5). reflexivity. }
  unfold r, run_script. fold start. cbv zeta. rewrite result.
  cbn [final drawn fetched ended page_after ending_of].
  repeat split; try reflexivity; try exact message_ne.
  - unfold p6, p5. apply in_draw_before, in_draw_before, in_draw.
  - unfold p6. apply in_draw.
Qed.

End DashboardFacts.

(* ================================================================== *)
(** * The dashboard, run on concrete backends *)
(* ================================================================== *)

Section DashboardRuns.

Import App.
Open Scope string_scope.

(** A response with status 300 is not a failure for [raise_for_status]: its
    JSON body is taken for a result.  No error is stored, no banner drawn,
    and the body becomes the metrics. *)
Lemma status_300_is_taken_for_a_result :
  error (final (run_script Demo.answering_300 (Some Demo.showing_paris)
                  (Demo.submit "Paris" "Green Cover"))) = JNull
  /\ metrics (final (run_script Demo.answering_300 (Some Demo.showing_paris)
                       (Demo.submit "Paris" "Green Cover")))
     = JObj [("message", JStr "choose one")]
  /\ filter is_error_banner
       (drawn (run_script Demo.answering_300 (Some Demo.showing_paris)
                 (Demo.submit "Paris" "Green Cover"))) = []
  /\ filter shows_result
       (drawn (run_script Demo.answering_300 (Some Demo.showing_paris)
                 (Demo.submit "Paris" "Green Cover")))
     = [Metric "Average Green Cover" 0 2 "%"; Metric "Average NDVI" 0 4 ""].
Proof. repeat split. Qed.

Lemma other_analysis_never_fetches_witness :
  fetched (run_script Demo.refusing (Some Demo.showing_paris)
             (Demo.submit "Paris" "Flood Risk")) = []
  /\ ended (run_script Demo.refusing (Some Demo.showing_paris)
              (Demo.submit "Paris" "Flood Risk")) = Stopped
  /\ In (Warning "This feature is under construction. Please check back later!")
        (drawn (run_script Demo.refusing (Some Demo.showing_paris)
                  (Demo.submit "Paris" "Flood Risk")))
  /\ filter shows_result
       (drawn (run_script Demo.refusing (Some Demo.showing_paris)
                 (Demo.submit "Paris" "Flood Risk"))) = [].
Proof.
  apply (@other_analysis_never_fetches Demo.refusing (Some Demo.showing_paris)
           (Demo.submit "Paris" "Flood Risk")); discriminate.
Defined.

Lemma failed_submission_shows_one_error_witness :
  exists message,
    error (final (run_script Demo.answering_404 (Some Demo.showing_paris)
                    (Demo.submit "Atlantis" "Heat Map"))) = JStr message
    /\ message <> ""
    /\ metrics (final (run_script Demo.answering_404 (Some Demo.showing_paris)
                         (Demo.submit "Atlantis" "Heat Map"))) = JNull
    /\ map_data (final (run_script Demo.answering_404 (Some Demo.showing_paris)
                          (Demo.submit "Atlantis" "Heat Map"))) = JNull
    /\ city (final (run_script Demo.answering_404 (Some Demo.showing_paris)
                      (Demo.submit "Atlantis" "Heat Map"))) = "Atlantis"
    /\ fetched (run_script Demo.answering_404 (Some Demo.showing_paris)
                  (Demo.submit "Atlantis" "Heat Map"))
       = ["http://127.0.0.1:8000/city/Atlantis/heatmap"]
    /\ ended (run_script Demo.answering_404 (Some Demo.showing_paris)
                (Demo.submit "Atlantis" "Heat Map")) = Completed
    /\ filter is_error_banner
         (drawn (run_script Demo.answering_404 (Some Demo.showing_paris)
                   (Demo.submit "Atlantis" "Heat Map"))) = [Error (JStr message)]
    /\ filter shows_result
         (drawn (run_script Demo.answering_404 (Some Demo.showing_paris)
                   (Demo.submit "Atlantis" "Heat Map"))) = []
    /\ In (Info "Search for a city to see its metrics.")
          (drawn (run_script Demo.answering_404 (Some Demo.showing_paris)
                    (Demo.submit "Atlantis" "Heat Map")))
    /\ In (Info "Map will be displayed here once data is loaded.")
          (drawn (run_script Demo.answering_404 (Some Demo.showing_paris)
                    (Demo.submit "Atlantis" "Heat Map"))).
Proof.
  apply (@failed_submission_shows_one_error Demo.answering_404 (Some Demo.showing_paris)
           (Demo.submit "Atlantis" "Heat Map") "heatmap").
  - reflexivity.
  - discriminate.
  - right. split; reflexivity.
  - right. right. left.
    exists 404%Z, "Not Found", (inr (JObj [("detail", JStr "City 'Atlantis' not found.")])).
    split; [reflexivity | lia].
Defined.

(** What the banner says after that 404: the server's detail is not used,
    since the error response is falsy. *)
Lemma banner_after_404 :
  error (final (run_script Demo.answering_404 (Some Demo.showing_paris)
                  (Demo.submit "Atlantis" "Heat Map")))
  = JStr "API Error: 404 Client Error: Not Found for url: http://127.0.0.1:8000/city/Atlantis/heatmap".
Proof. reflexivity. Qed.

End DashboardRuns.

(* ================================================================== *)
(** * Further facts about the gateway *)
(* ================================================================== *)

Section Collections.

Import Main.
Open Scope Q_scope.

Variable name : string.

Lemma filter_lt_In (bound : Q) (scenes : list scene) (s : scene) :
  In s (filter_lt name bound scenes)
  <-> In s scenes /\ exists c, property s name = Some c /\ c < bound.
Proof.
  unfold filter_lt. rewrite filter_In. split.
  - intros [H K]. split; [exact H|].
    destruct (property s name) as [c|]; [|discriminate].
    exists c. split; [reflexivity|].
    destruct (Qlt_le_dec c bound); [assumption|discriminate].
  - intros [H (c & E & L)]. split; [exact H|]. rewrite E.
    destruct (Qlt_le_dec c bound) as [_|ge]; [reflexivity|].
    exfalso. exact (Qlt_not_le _ _ L ge).
Qed.

Lemma insert_by_In (s x : scene) (sorted : list scene) :
  In x (insert_by name s sorted) <-> x = s \/ In x sorted.
Proof.
  induction sorted as [|t rest IH]; cbn [insert_by].
  - cbn. intuition.
  - destruct (property_le name s t); cbn [In].
    + intuition.
    + rewrite IH. intuition.
Qed.

Lemma sort_In (scenes : list scene) (x : scene) :
  In x (sort name scenes) <-> In x scenes.
Proof.
  induction scenes as [|s scenes IH]; cbn [sort fold_right In].
  - reflexivity.
  - fold (sort name scenes). rewrite insert_by_In, IH. intuition.
Qed.

Lemma property_le_total (a b : scene) (x y : Q) :
  property a name = Some x -> property b name = Some y ->
  property_le name a b = false -> property_le name b a = true.
Proof.
  unfold property_le. intros -> ->. intro H.
  apply Qle_bool_iff. apply Qlt_le_weak. apply Qnot_le_lt.
  intro le. apply Qle_bool_iff in le. rewrite le in H. discriminate.
Qed.

Lemma property_le_trans (a b c : scene) :
  property_le name a b = true -> property_le name b c = true ->
  property_le name a c = true.
Proof.
  unfold property_le.
  destruct (property a name) as [x|]; [|discriminate].
  destruct (property b name) as [y|]; [|discriminate].
  destruct (property c name) as [z|]; [|reflexivity].
  rewrite !Qle_bool_iff. apply Qle_trans.
Qed.

(** The head of a sorted collection is below every scene of it. *)
Lemma sort_head_least (scenes : list scene) (image : scene) (rest : list scene) :
  (forall s, In s scenes -> exists c, property s name = Some c) ->
  sort name scenes = image :: rest ->
  forall s, In s scenes -> property_le name image s = true.
Proof.
  revert image rest.
  induction scenes as [|a scenes IH]; intros image rest valued E s Hs.
  - destruct Hs.
  - cbn [sort fold_right] in E. fold (sort name scenes) in E.
    assert (valued' : forall s, In s scenes -> exists c, property s name = Some c).
    { intros t Ht. apply valued. right. exact Ht. }
    destruct (valued a (or_introl eq_refl)) as (ca & Ea).
    assert (refl : property_le name a a = true).
    { unfold property_le. rewrite Ea. apply Qle_bool_iff, Qle_refl. }
    destruct (sort name scenes) as [|h t] eqn:S.
    + cbn [insert_by] in E. injection E as <- <-.
      destruct scenes as [|b scenes].
      * destruct Hs as [<-|[]]. exact refl.
      * exfalso. assert (In b (sort name (b :: scenes))) by (apply sort_In; left; reflexivity).
        rewrite S in H. destruct H.
    + cbn [insert_by] in E.
      assert (h_in : In h scenes) by (apply sort_In; rewrite S; left; reflexivity).
      destruct (valued' h h_in) as (ch & Eh).
      specialize (IH h t valued' eq_refl).
      destruct (property_le name a h) eqn:L; injection E as <- <-.
      * destruct Hs as [<-|Hs]; [exact refl|].
        apply (property_le_trans a h s L). apply IH. exact Hs.
      * destruct Hs as [<-|Hs]; [|apply IH; exact Hs].
        exact (property_le_total a h Ea Eh L).
Qed.

(** The first scene of a filtered and sorted collection is one of the
    collection. *)
Lemma first_In (bound : Q) (scenes : list scene) (image : scene) :
  first (sort name (filter_lt name bound scenes)) = Return image -> In image scenes.
Proof.
  intro H.
  destruct (sort name (filter_lt name bound scenes)) as [|h rest] eqn:S; [discriminate|].
  injection H as ->.
  assert (kept : In image (filter_lt name bound scenes)).
  { apply sort_In. rewrite S. left. reflexivity. }
  apply filter_lt_In in kept. apply kept.
Qed.

(** What [.filter(ee.Filter.lt(name, bound)).sort(name).first()] picks: a
    scene of the collection whose property is below the bound, and not
    above that of any other such scene. *)
Theorem first_is_least_cloudy (bound : Q) (scenes : list scene) (image : scene) :
  first (sort name (filter_lt name bound scenes)) = Return image ->
  In image scenes
  /\ exists c,
       property image name = Some c /\ c < bound
       /\ forall s c', In s scenes -> property s name = Some c' -> c' < bound -> c <= c'.
Proof.
  intro H.
  destruct (sort name (filter_lt name bound scenes)) as [|h rest] eqn:S; [discriminate|].
  injection H as ->.
  assert (kept : In image (filter_lt name bound scenes)).
  { apply sort_In. rewrite S. left. reflexivity. }
  apply filter_lt_In in kept. destruct kept as (Hin & c & E & L).
  split; [exact Hin|]. exists c. split; [exact E|split; [exact L|]].
  intros s c' Hs Es Ls.
  assert (le : property_le name image s = true).
  { apply (@sort_head_least (filter_lt name bound scenes) image rest); [|exact S|].
    - intros t Ht. apply filter_lt_In in Ht. destruct Ht as (_ & ct & Et & _). eauto.
    - apply filter_lt_In. eauto. }
  unfold property_le in le. rewrite E, Es in le.
  apply Qle_bool_iff. exact le.
Qed.

(** With nothing below the bound there is no first scene. *)
Lemma first_of_nothing (bound : Q) (scenes : list scene) :
  (forall s c, In s scenes -> property s name = Some c -> bound <= c) ->
  exists message, first (sort name (filter_lt name bound scenes)) = Raise (Exception message).
Proof.
  intro H.
  destruct (sort name (filter_lt name bound scenes)) as [|h rest] eqn:S.
  - eexists. reflexivity.
  - exfalso.
    assert (kept : In h (filter_lt name bound scenes)).
    { apply sort_In. rewrite S. left. reflexivity. }
    apply filter_lt_In in kept. destruct kept as (Hin & c & E & L).
    exact (Qlt_not_le _ _ L (H h c Hin E)).
Qed.

End Collections.

Section VegetationIndex.

Import Main.
Open Scope Q_scope.

(** A pixel of a normalized difference: never a negative weight when the
    scene has none, and a value between -1 and 1. *)
Lemma normalizedDifference_pixel (a b : string) (scale : Z) (image : scene) (p : Q * Q) :
  (forall px, In px (pixels image scale) -> 0 <= weight px) ->
  In p (normalizedDifference a b scale image) ->
  0 <= fst p /\ -1 <= snd p <= 1.
Proof.
  intros nonneg H. unfold normalizedDifference in H.
  apply in_map_iff in H. destruct H as (px & <- & Hpx).
  cbv zeta.
  destruct (Qlt_le_dec (band px a) 0) as [|xa]; [cbn; lra|].
  destruct (Qlt_le_dec (band px b) 0) as [|xb]; [cbn; lra|].
  destruct (Qeq_bool (band px a + band px b) 0) eqn:Z; [cbn; lra|].
  apply Qeq_bool_neq in Z. cbn [fst snd].
  assert (pos : 0 < band px a + band px b).
  { apply Qnot_le_lt. intro le. apply Z. lra. }
  split; [apply nonneg, Hpx|]. split.
  - apply Qle_shift_div_l; [exact pos | lra].
  - apply Qle_shift_div_r; [exact pos | lra].
Qed.

Lemma weighted_sum_bounds (img : band_image) :
  (forall p, In p img -> 0 <= fst p /\ -1 <= snd p <= 1) ->
  0 <= total_weight img
  /\ - total_weight img <= weighted_sum img <= total_weight img.
Proof.
  induction img as [|[w v] img IH]; intro H.
  - cbn. lra.
  - cbn [total_weight weighted_sum fold_right fst snd].
    fold (total_weight img). fold (weighted_sum img).
    destruct (H (w, v) (or_introl eq_refl)) as [Hw [lo hi]]. cbn [fst snd] in *.
    destruct IH as [T [S1 S2]]; [intros p Hp; apply H; right; exact Hp|].
    assert (w * v <= w) by nra.
    assert (- w <= w * v) by nra.
    lra.
Qed.

(** A weighted mean of values between -1 and 1 lies between -1 and 1. *)
Lemma reduceRegion_mean_bounds (img : band_image) (v : Q) :
  (forall p, In p img -> 0 <= fst p /\ -1 <= snd p <= 1) ->
  reduceRegion_mean img = Some v -> -1 <= v <= 1.
Proof.
  intros H. unfold reduceRegion_mean.
  destruct (Qeq_bool (total_weight img) 0) eqn:Z; [discriminate|].
  intro E. injection E as <-.
  apply Qeq_bool_neq in Z.
  destruct (weighted_sum_bounds img H) as [T [lo hi]].
  assert (pos : 0 < total_weight img).
  { apply Qnot_le_lt. intro le. apply Z. lra. }
  split.
  - apply Qle_shift_div_l; [exact pos | lra].
  - apply Qle_shift_div_r; [exact pos | lra].
Qed.

End VegetationIndex.

Section GatewayErrors.

Import Main.
Open Scope string_scope.
Open Scope Z_scope.

Variable geocoder : string -> http_reply.
Variable earth_engine : catalogue_query -> ee_reply.
Variable ee_not_initialized : string.
Variable srv : server.

Let coords := get_city_coords geocoder srv.
Let green := get_green_cover geocoder earth_engine ee_not_initialized srv.
Let heat := get_heat_map geocoder earth_engine ee_not_initialized srv.
Let serve := app geocoder earth_engine ee_not_initialized srv.

(** An exception of geocoding that is not an [HTTPException] leaves both
    endpoints as a 500 that blames Earth Engine. *)
Lemma endpoints_wrap (city message : string) :
  coords city = Raise (Exception message) ->
  green city
  = Raise (HTTPException 500 ("An error occurred with Google Earth Engine: " ++ message))
  /\ heat city
     = Raise (HTTPException 500 ("An error occurred with Google Earth Engine: " ++ message)).
Proof.
  unfold coords, green, heat, get_green_cover, get_heat_map.
  intros ->. split; reflexivity.
Qed.

Lemma get_city_coords_asks (city key : string) :
  OPENWEATHER_API_KEY (env srv) = Some key -> key <> "" ->
  coords city
  = match geocoder (geo_url city key) with
    | Unreachable message => Raise (Exception message)
    | Reply status_code body =>
        if negb (status_code =? 200) then
          Raise (HTTPException 500 "Failed to connect to Geocoding service.")
        else
          match body with
          | inl message => Raise (Exception message)
          | inr data =>
              if negb (truthy data) then
                Raise (HTTPException 404 ("City '" ++ city ++ "' not found."))
              else
                bind (getitem_0 data) (fun place =>
                bind (getitem "lat" place) (fun lat =>
                bind (getitem_0 data) (fun place' =>
                bind (getitem "lon" place') (fun lon => Return (lat, lon)))))
          end
    end.
Proof.
  intros K ne. unfold coords, get_city_coords. rewrite K.
  apply String.eqb_neq in ne. cbn [truthy_str]. rewrite ne. reflexivity.
Qed.

(** Any geocoder status other than 200, whatever the body, is reported by
    both endpoints as a 500 "Failed to connect to Geocoding service.". *)
Theorem geocoder_status_not_200
        (city key : string) (status_code : Z) (body : string + json) :
  OPENWEATHER_API_KEY (env srv) = Some key -> key <> "" ->
  geocoder (geo_url city key) = Reply status_code body ->
  status_code <> 200 ->
  green city = Raise (HTTPException 500 "Failed to connect to Geocoding service.")
  /\ heat city = Raise (HTTPException 500 "Failed to connect to Geocoding service.").
Proof.
  intros K ne G bad.
  apply endpoints_reraise. fold coords.
  rewrite (get_city_coords_asks city K ne), G.
  apply Z.eqb_neq in bad. rewrite bad. reflexivity.
Qed.

(** A geocoder that cannot be reached, or whose 200 answer is not JSON,
    makes both endpoints answer 500 with the exception's message behind
    "An error occurred with Google Earth Engine: ". *)
Theorem geocoder_failure_blamed_on_earth_engine (city key message : string) :
  OPENWEATHER_API_KEY (env srv) = Some key -> key <> "" ->
  geocoder (geo_url city key) = Unreachable message
  \/ geocoder (geo_url city key) = Reply 200 (inl message) ->
  green city
  = Raise (HTTPException 500 ("An error occurred with Google Earth Engine: " ++ message))
  /\ heat city
     = Raise (HTTPException 500 ("An error occurred with Google Earth Engine: " ++ message)).
Proof.
  intros K ne G.
  apply endpoints_wrap.
  rewrite (get_city_coords_asks city K ne).
  destruct G as [-> | ->]; reflexivity.
Qed.

(** Of a non-empty result list only the first entry is read: its [lat] and
    [lon] are the coordinates, whatever follows; when it has no [lat], or a
    [lat] but no [lon], both endpoints answer 500 with the missing key's
    name in the detail. *)
Theorem first_geocoding_result_is_used
        (city key : string) (fields : list (string * json)) (others : list json) :
  OPENWEATHER_API_KEY (env srv) = Some key -> key <> "" ->
  geocoder (geo_url city key) = Reply 200 (inr (JList (JObj fields :: others))) ->
  match assoc "lat" fields, assoc "lon" fields with
  | Some lat, Some lon => coords city = Return (lat, lon)
  | None, _ =>
      green city
      = Raise (HTTPException 500 "An error occurred with Google Earth Engine: 'lat'")
      /\ heat city
         = Raise (HTTPException 500 "An error occurred with Google Earth Engine: 'lat'")
  | Some _, None =>
      green city
      = Raise (HTTPException 500 "An error occurred with Google Earth Engine: 'lon'")
      /\ heat city
         = Raise (HTTPException 500 "An error occurred with Google Earth Engine: 'lon'")
  end.
Proof.
  intros K ne G.
  pose proof (get_city_coords_asks city K ne) as C. rewrite G in C.
  cbn [Z.eqb Pos.eqb negb truthy getitem_0 getitem bind] in C.
  destruct (assoc "lat" fields) as [lat|]; cbn [bind] in C.
  - destruct (assoc "lon" fields) as [lon|]; cbn [bind] in C.
    + exact C.
    + exact (endpoints_wrap city C).
  - exact (endpoints_wrap city C).
Qed.

(** When Earth Engine answers the request with an error, the endpoint
    answers 500 and passes the message on. *)
Theorem earth_engine_error_is_500 (city message : string) (lat lon : json) :
  coords city = Return (lat, lon) ->
  ee_initialized srv = true ->
  (earth_engine (sentinel2 {| lon := lon; lat := lat; radius := 2000 |}) = EEError message ->
   green city
   = Raise (HTTPException 500 ("An error occurred with Google Earth Engine: " ++ message)))
  /\ (earth_engine (landsat8 {| lon := lon; lat := lat; radius := 2000 |}) = EEError message ->
      heat city
      = Raise (HTTPException 500 ("An error occurred with Google Earth Engine: " ++ message))).
Proof.
  intros C I. unfold coords in C.
  split; intro E.
  - unfold green, get_green_cover. rewrite C. cbn [bind].
    unfold buffered_point. rewrite I. cbn [bind].
    unfold ImageCollection. rewrite E. reflexivity.
  - unfold heat, get_heat_map. rewrite C. cbn [bind].
    unfold buffered_point. rewrite I. cbn [bind].
    unfold ImageCollection. rewrite E. reflexivity.
Qed.

(** When the chosen scene has no pixel with weight over the region, the
    statistic is [None] and the endpoint answers 404 with a detail that
    names the city as it was given. *)
Theorem no_valid_pixel_is_404
        (city : string) (lat lon : json) (scenes : list scene) (image : scene) :
  coords city = Return (lat, lon) ->
  ee_initialized srv = true ->
  (earth_engine (sentinel2 {| lon := lon; lat := lat; radius := 2000 |}) = EEScenes scenes ->
   first (sort "CLOUDY_PIXEL_PERCENTAGE" (filter_lt "CLOUDY_PIXEL_PERCENTAGE" 20 scenes))
   = Return image ->
   (forall p, In p (pixels image 10) -> (weight p == 0)%Q) ->
   green city
   = Raise (HTTPException 404
              ("Could not compute NDVI for " ++ city
                 ++ ". No clear satellite imagery might be available.")))
  /\ (earth_engine (landsat8 {| lon := lon; lat := lat; radius := 2000 |}) = EEScenes scenes ->
      first (sort "CLOUD_COVER" (filter_lt "CLOUD_COVER" 20 scenes)) = Return image ->
      (forall p, In p (pixels image 30) -> (weight p == 0)%Q) ->
      heat city
      = Raise (HTTPException 404
                 ("Could not compute LST for " ++ city
                    ++ ". No clear satellite imagery might be available."))).
Proof.
  intros C I. unfold coords in C.
  assert (none : forall img : band_image,
             (forall p, In p img -> (fst p == 0)%Q) -> reduceRegion_mean img = None).
  { intros img H. unfold reduceRegion_mean.
    assert (T : (total_weight img == 0)%Q).
    { induction img as [|p img IH]; [reflexivity|].
      cbn [total_weight fold_right]. fold (total_weight img).
      rewrite (H p (or_introl eq_refl)), IH; [ring|].
      intros q Hq. apply H. right. exact Hq. }
    apply Qeq_bool_iff in T. rewrite T. reflexivity. }
  split; intros E F masked.
  - unfold green, get_green_cover. rewrite C. cbn [bind].
    unfold buffered_point. rewrite I. cbn [bind].
    unfold ImageCollection. rewrite E. cbn [bind]. rewrite F. cbn [bind].
    rewrite none; [reflexivity|].
    intros p Hp. unfold normalizedDifference in Hp.
    apply in_map_iff in Hp. destruct Hp as (px & <- & Hpx). cbv zeta.
    destruct (Qlt_le_dec (band px "B8") 0); [reflexivity|].
    destruct (Qlt_le_dec (band px "B4") 0); [reflexivity|].
    destruct (Qeq_bool (band px "B8" + band px "B4") 0); [reflexivity|].
    apply masked, Hpx.
  - unfold heat, get_heat_map. rewrite C. cbn [bind].
    unfold buffered_point. rewrite I. cbn [bind].
    unfold ImageCollection. rewrite E. cbn [bind]. rewrite F. cbn [bind].
    rewrite none; [reflexivity|].
    intros p Hp. unfold subtract, add, multiply, select in Hp.
    rewrite !map_map in Hp.
    apply in_map_iff in Hp. destruct Hp as (px & <- & Hpx).
    apply masked, Hpx.
Qed.

(** Every successful green-cover response - the scenes having no negative
    weight - reports an [avg_ndvi] between -1 and 1 and a
    [green_cover_percentage] between 0 and 100. *)
Theorem green_cover_percentage_in_range (city : string) (response : json) :
  (forall query scenes s p,
      earth_engine query = EEScenes scenes -> In s scenes -> In p (pixels s 10) ->
      (0 <= weight p)%Q) ->
  green city = Return response ->
  exists avg_ndvi cover,
    getitem "avg_ndvi" response = Return (JNum avg_ndvi)
    /\ getitem "green_cover_percentage" response = Return (JNum cover)
    /\ (-1 <= avg_ndvi <= 1)%Q
    /\ (0 <= cover <= 100)%Q.
Proof.
  intros nonneg H.
  apply get_green_cover_Return in H.
  destruct H as (lat & lon & scenes & image & avg & _ & E & F & R & ->).
  pose proof (@first_In "CLOUDY_PIXEL_PERCENTAGE" 20%Q scenes image F) as Hin.
  exists avg, (green_cover_percentage avg).
  assert (B : (-1 <= avg <= 1)%Q).
  { apply (@reduceRegion_mean_bounds (normalizedDifference "B8" "B4" 10 image) avg);
      [|exact R].
    intros p Hp. apply (@normalizedDifference_pixel "B8" "B4" 10 image p); [|exact Hp].
    intros px Hpx. exact (nonneg _ _ _ _ E Hin Hpx). }
  repeat split; try reflexivity; try apply B;
    unfold green_cover_percentage; destruct B; lra.
Qed.


(** A GET for [/city/<city>/green] or [/city/<city>/heatmap], with a city
    that is not empty and has no slash, is answered by the handler, called
    with exactly that city. *)
Theorem analysis_routes_reach_their_handler (city : string) :
  contains "/" city = false -> city <> "" ->
  serve ("/city/" ++ city ++ "/green") = respond (green city)
  /\ serve ("/city/" ++ city ++ "/heatmap") = respond (heat city).
Proof.
  intros slash ne. unfold serve, app.
  rewrite (@match_route_green city slash ne), (@match_route_heatmap city slash ne).
  split; reflexivity.
Qed.

End GatewayErrors.

Section GatewayErrorRuns.

Import Main.
Open Scope string_scope.

Lemma first_is_least_cloudy_witness :
  In Demo.clear_scene [Demo.cloudy_scene; Demo.clear_scene]
  /\ exists c,
       property Demo.clear_scene "CLOUD_COVER" = Some c /\ (c < 20)%Q
       /\ forall s c',
            In s [Demo.cloudy_scene; Demo.clear_scene] ->
            property s "CLOUD_COVER" = Some c' -> (c' < 20)%Q -> (c <= c')%Q.
Proof.
  apply (@first_is_least_cloudy "CLOUD_COVER" 20%Q
           [Demo.cloudy_scene; Demo.clear_scene] Demo.clear_scene).
  reflexivity.
Defined.

Lemma geocoder_status_not_200_witness :
  get_green_cover Demo.busy_geocoder Demo.earth_engine Demo.ee_not_initialized
    (Demo.start Demo.configured) "Paris"
  = Raise (HTTPException 500 "Failed to connect to Geocoding service.")
  /\ get_heat_map Demo.busy_geocoder Demo.earth_engine Demo.ee_not_initialized
       (Demo.start Demo.configured) "Paris"
     = Raise (HTTPException 500 "Failed to connect to Geocoding service.").
Proof.
  apply (@geocoder_status_not_200 Demo.busy_geocoder Demo.earth_engine
           Demo.ee_not_initialized (Demo.start Demo.configured)
           "Paris" "k3y" 503%Z (inl "Expecting value: line 1 column 1 (char 0)")).
  - reflexivity.
  - discriminate.
  - reflexivity.
  - discriminate.
Defined.

Lemma geocoder_failure_blamed_on_earth_engine_witness :
  get_green_cover Demo.unreachable_geocoder Demo.earth_engine Demo.ee_not_initialized
    (Demo.start Demo.configured) "Paris"
  = Raise (HTTPException 500
             "An error occurred with Google Earth Engine: Connection refused")
  /\ get_heat_map Demo.unreachable_geocoder Demo.earth_engine Demo.ee_not_initialized
       (Demo.start Demo.configured) "Paris"
     = Raise (HTTPException 500
                "An error occurred with Google Earth Engine: Connection refused").
Proof.
  apply (@geocoder_failure_blamed_on_earth_engine Demo.unreachable_geocoder
           Demo.earth_engine Demo.ee_not_initialized (Demo.start Demo.configured)
           "Paris" "k3y" "Connection refused").
  - reflexivity.
  - discriminate.
  - left. reflexivity.
Defined.

Lemma first_geocoding_result_is_used_witness :
  (get_green_cover Demo.sloppy_geocoder Demo.earth_engine Demo.ee_not_initialized
     (Demo.start Demo.configured) "Paris"
   = Raise (HTTPException 500 "An error occurred with Google Earth Engine: 'lat'")
   /\ get_heat_map Demo.sloppy_geocoder Demo.earth_engine Demo.ee_not_initialized
        (Demo.start Demo.configured) "Paris"
      = Raise (HTTPException 500 "An error occurred with Google Earth Engine: 'lat'"))
  /\ get_city_coords Demo.geocoder (Demo.start Demo.configured) "Paris"
     = Return (JNum 48.8566, JNum 2.3522).
Proof.
  split.
  - apply (@first_geocoding_result_is_used Demo.sloppy_geocoder Demo.earth_engine
             Demo.ee_not_initialized (Demo.start Demo.configured) "Paris" "k3y"
             [("name", JStr "Paris"); ("lon", JNum 2.3522)]
             [JObj [("name", JStr "Paris"); ("lat", JNum 33.6609);
                    ("lon", JNum (-95.5555))]]).
    + reflexivity.
    + discriminate.
    + reflexivity.
  - apply (@first_geocoding_result_is_used Demo.geocoder Demo.earth_engine
             Demo.ee_not_initialized (Demo.start Demo.configured) "Paris" "k3y"
             [("name", JStr "Paris"); ("lat", JNum 48.8566); ("lon", JNum 2.3522);
              ("country", JStr "FR")] []).
    + reflexivity.
    + discriminate.
    + reflexivity.
Defined.

Lemma earth_engine_error_is_500_witness :
  get_green_cover Demo.geocoder Demo.failing_earth_engine Demo.ee_not_initialized
    (Demo.start Demo.configured) "Paris"
  = Raise (HTTPException 500
             "An error occurred with Google Earth Engine: Computation timed out.")
  /\ get_heat_map Demo.geocoder Demo.failing_earth_engine Demo.ee_not_initialized
       (Demo.start Demo.configured) "Paris"
     = Raise (HTTPException 500
                "An error occurred with Google Earth Engine: Computation timed out.").
Proof.
  destruct (@earth_engine_error_is_500 Demo.geocoder Demo.failing_earth_engine
              Demo.ee_not_initialized (Demo.start Demo.configured)
              "Paris" "Computation timed out." (JNum 48.8566) (JNum 2.3522)
              eq_refl eq_refl) as [G H].
  split; [apply G | apply H]; reflexivity.
Defined.

Lemma no_valid_pixel_is_404_witness :
  get_green_cover Demo.geocoder Demo.masked_earth_engine Demo.ee_not_initialized
    (Demo.start Demo.configured) "paris"
  = Raise (HTTPException 404
             "Could not compute NDVI for paris. No clear satellite imagery might be available.")
  /\ get_heat_map Demo.geocoder Demo.masked_earth_engine Demo.ee_not_initialized
       (Demo.start Demo.configured) "paris"
     = Raise (HTTPException 404
                "Could not compute LST for paris. No clear satellite imagery might be available.").
Proof.
  destruct (@no_valid_pixel_is_404 Demo.geocoder Demo.masked_earth_engine
              Demo.ee_not_initialized (Demo.start Demo.configured)
              "paris" (JNum 48.8566) (JNum 2.3522) [Demo.masked_scene] Demo.masked_scene
              eq_refl eq_refl) as [G H].
  split; [apply G | apply H]; try reflexivity;
    intros p [<-|[]]; reflexivity.
Defined.

Lemma green_cover_percentage_in_range_witness :
  exists avg_ndvi cover,
    getitem "avg_ndvi" (green_response "Paris" (JNum 48.8566) (JNum 2.3522) (1400 # 4000))
    = Return (JNum avg_ndvi)
    /\ getitem "green_cover_percentage"
         (green_response "Paris" (JNum 48.8566) (JNum 2.3522) (1400 # 4000))
       = Return (JNum cover)
    /\ (-1 <= avg_ndvi <= 1)%Q
    /\ (0 <= cover <= 100)%Q.
Proof.
  apply (@green_cover_percentage_in_range Demo.geocoder Demo.earth_engine
           Demo.ee_not_initialized (Demo.start Demo.configured) "Paris").
  - intros query scenes s p E Hs Hp.
    injection E as <-.
    destruct Hs as [<-|[<-|[]]]; destruct Hp as [<-|[]]; discriminate.
  - reflexivity.
Defined.

Lemma analysis_routes_reach_their_handler_witness :
  Demo.serve Demo.configured "/city/Paris/green"
  = respond (Demo.green Demo.configured "Paris")
  /\ Demo.serve Demo.configured "/city/Paris/heatmap"
     = respond (Demo.heat Demo.configured "Paris").
Proof.
  apply (@analysis_routes_reach_their_handler Demo.geocoder Demo.earth_engine
           Demo.ee_not_initialized (Demo.start Demo.configured) "Paris").
  - reflexivity.
  - discriminate.
Defined.

End GatewayErrorRuns.

(* ================================================================== *)
(** * Further facts about the dashboard *)
(* ================================================================== *)

Section DashboardFetching.

Import App.
Open Scope string_scope.

Variable backend : string -> fetch_result.

(** Lines 91-96: what the fetching block does with the dict it got. *)
Let handle (data : json) : script unit :=
  match str_in "error" data with
  | None => uncaught "argument is not iterable"
  | Some true =>
      seq (eval (getitem "error" data)) (fun message => update (set_error message))
  | Some false =>
      seq (update (set_metrics data)) (fun _ =>
      seq (eval (get_location data)) (fun location => update (set_map_data location)))
  end.

Lemma endpoint_map_get_Some (analysis_type endpoint : string) :
  endpoint_map_get analysis_type = Some endpoint ->
  (analysis_type = "Green Cover" /\ endpoint = "green")
  \/ (analysis_type = "Heat Map" /\ endpoint = "heatmap").
Proof.
  unfold endpoint_map_get, endpoint_map. cbn [find fst].
  destruct (String.eqb analysis_type "Green Cover") eqn:G.
  - apply String.eqb_eq in G. cbn. intros [= <-]. auto.
  - destruct (String.eqb analysis_type "Heat Map") eqn:H.
    + apply String.eqb_eq in H. cbn. intros [= <-]. auto.
    + discriminate.
Qed.

(** With an endpoint for the selection, [get_city_data] sends one request
    and always comes back with a value. *)
Lemma get_city_data_sends (city analysis_type endpoint : string) :
  endpoint_map_get analysis_type = Some endpoint ->
  exists data,
    forall p,
      get_city_data backend city analysis_type p
      = Next data (sent (API_BASE_URL ++ "/city/" ++ city ++ "/" ++ endpoint) p).
Proof.
  intro E.
  assert (ne : String.eqb endpoint "" = false).
  { destruct (endpoint_map_get_Some _ E) as [[_ ->]|[_ ->]]; reflexivity. }
  unfold get_city_data. rewrite E. cbn [truthy_str]. rewrite ne. cbn [negb].
  unfold seq, requests_get, ret.
  destruct (backend (API_BASE_URL ++ "/city/" ++ city ++ "/" ++ endpoint))
    as [m|m|m|status reason [m|data]];
    try (eexists; reflexivity);
    destruct ((400 <=? status)%Z && (status <? 600)%Z); eexists; reflexivity.
Qed.

(** A body that decodes, under a status that is no error for
    [raise_for_status], is what [get_city_data] returns. *)
Lemma get_city_data_body
      (city analysis_type endpoint reason : string) (status : Z) (data : json) :
  endpoint_map_get analysis_type = Some endpoint ->
  backend (API_BASE_URL ++ "/city/" ++ city ++ "/" ++ endpoint)
  = Response status reason (inr data) ->
  (status < 400 \/ 600 <= status)%Z ->
  forall p,
    get_city_data backend city analysis_type p
    = Next data (sent (API_BASE_URL ++ "/city/" ++ city ++ "/" ++ endpoint) p).
Proof.
  intros E B ok p.
  assert (ne : String.eqb endpoint "" = false).
  { destruct (endpoint_map_get_Some _ E) as [[_ ->]|[_ ->]]; reflexivity. }
  unfold get_city_data. rewrite E. cbn [truthy_str]. rewrite ne. cbn [negb].
  unfold seq, requests_get, ret. rewrite B.
  replace ((400 <=? status)%Z && (status <? 600)%Z) with false; [reflexivity|].
  symmetry. apply andb_false_iff.
  destruct ok; [left; apply Z.leb_gt | right; apply Z.ltb_ge]; lia.
Qed.

(** The fetching block of a submission, up to the point where it has the
    dict: the session is cleared, the city stored, one request sent. *)
Lemma data_fetching_got (input : user_input) (p : page) (data : json) (url : string) :
  submitted input = true ->
  city_input input <> "" ->
  (forall q,
      get_city_data backend (city_input input) (analysis_type (session p)) q
      = Next data (sent url q)) ->
  exists p',
    data_fetching backend input p = handle data p'
    /\ session p'
       = set_error JNull (set_metrics JNull (set_map_data JNull
           (set_city (city_input input) (session p))))
    /\ requested p' = (requested p ++ [url])%list
    /\ screen p'
       = (screen p
            ++ [Spinner ("Analyzing " ++ analysis_type (session p) ++ " for "
                           ++ city_input input ++ "... This may take a moment.")])%list.
Proof.
  intros sub ne G. apply String.eqb_neq in ne.
  unfold data_fetching. rewrite sub, ne. cbn [negb andb].
  eexists. split.
  - do 6 (erewrite seq_Next by reflexivity; cbv beta).
    erewrite seq_Next by apply G. cbv beta.
    reflexivity.
  - split; [reflexivity|]. split; reflexivity.
Qed.

(** Whatever the dict is, handling it sends nothing, draws nothing, and
    leaves the city and the selection alone. *)
Lemma handle_effect (data : json) (p : page) :
  requested (page_after (handle data p)) = requested p
  /\ screen (page_after (handle data p)) = screen p
  /\ city (session (page_after (handle data p))) = city (session p)
  /\ analysis_type (session (page_after (handle data p))) = analysis_type (session p).
Proof.
  unfold handle.
  destruct (str_in "error" data) as [[|]|].
  - destruct (getitem "error" data); repeat split.
  - unfold seq at 1. cbn [update].
    destruct (get_location data); repeat split.
  - repeat split.
Qed.

(** A run, seen from the fetching block: the sidebar has stored the
    selection, nothing was requested yet, and what the block leaves is what
    the run ends with. *)
Lemma run_through_fetching (previous : option session_state) (input : user_input) :
  exists p1,
    session p1 = set_analysis_type (radio input) (App.initialize previous)
    /\ requested p1 = []
    /\ final (run_script backend previous input)
       = session (page_after (data_fetching backend input p1))
    /\ fetched (run_script backend previous input)
       = requested (page_after (data_fetching backend input p1)).
Proof.
  eexists. split; [|split; [|split]].
  3: { unfold run_script, dashboard. cbv zeta. cbn [final].
       erewrite seq_Next by apply sidebar_run.
       apply seq_only_draws_session. intros _. apply main_page_only_draws. }
  3: { unfold run_script, dashboard. cbv zeta. cbn [fetched].
       erewrite seq_Next by apply sidebar_run.
       apply seq_only_draws_requested. intros _. apply main_page_only_draws. }
  - reflexivity.
  - reflexivity.
Qed.

(** No run sends more than one request, and every run stores the radio
    selection as [analysis_type], however it ends. *)
Theorem at_most_one_request (previous : option session_state) (input : user_input) :
  (List.length (fetched (run_script backend previous input)) <= 1)%nat
  /\ analysis_type (final (run_script backend previous input)) = radio input.
Proof.
  destruct (run_through_fetching previous input) as (p1 & S & R & -> & ->).
  assert (kind : analysis_type (session p1) = radio input) by (rewrite S; reflexivity).
  destruct (submitted input && negb (String.eqb (city_input input) "")) eqn:go.
  - apply andb_true_iff in go. destruct go as [sub ne].
    apply negb_true_iff, String.eqb_neq in ne.
    destruct (endpoint_map_get (analysis_type (session p1))) as [endpoint|] eqn:E.
    + destruct (get_city_data_sends (city_input input) _ E) as (data & G).
      destruct (data_fetching_got input p1 sub ne G) as (p' & -> & S' & R' & _).
      destruct (handle_effect data p') as (-> & _ & _ & ->).
      rewrite R', R, S'. cbn. split; [lia | exact kind].
    + destruct (data_fetching_other backend input p1 E) as (p' & -> & K & R' & _).
      cbn [page_after]. rewrite R', R, K. cbn. split; [lia | exact kind].
  - unfold data_fetching. rewrite go. cbn [ret page_after].
    rewrite R. cbn. split; [lia | exact kind].
Qed.

(** A submission with "Green Cover" or "Heat Map" selected sends exactly
    one request, to [/city/<city>/<endpoint>] of the backend with the city
    text as it was typed, whatever comes back and however the run ends. *)
Theorem one_request_per_submission
        (previous : option session_state) (input : user_input) (endpoint : string) :
  submitted input = true ->
  city_input input <> "" ->
  endpoint_map_get (radio input) = Some endpoint ->
  fetched (run_script backend previous input)
  = [API_BASE_URL ++ "/city/" ++ city_input input ++ "/" ++ endpoint]
  /\ city (final (run_script backend previous input)) = city_input input.
Proof.
  intros sub ne E.
  destruct (run_through_fetching previous input) as (p1 & S & R & -> & ->).
  assert (kind : analysis_type (session p1) = radio input) by (rewrite S; reflexivity).
  rewrite <- kind in E.
  destruct (get_city_data_sends (city_input input) _ E) as (data & G).
  destruct (data_fetching_got input p1 sub ne G) as (p' & -> & S' & R' & _).
  destruct (handle_effect data p') as (-> & _ & -> & _).
  rewrite R', R, S'. split; reflexivity.
Qed.

(** Without a submission - the form not submitted, whatever its text -
    nothing is requested and [city], [metrics], [map_data] and [error] stay
    as they were; only the selection is stored. *)
Theorem no_submission_keeps_the_result
        (previous : option session_state) (city_text radio : string) :
  let before := App.initialize previous in
  let after := run_script backend previous
                 {| city_input := city_text; submitted := false; radio := radio |} in
  fetched after = []
  /\ final after = set_analysis_type radio before.
Proof.
  intros before after. unfold after.
  destruct (run_through_fetching previous
              {| city_input := city_text; submitted := false; radio := radio |})
    as (p1 & S & R & -> & ->).
  unfold data_fetching. cbn [submitted andb ret page_after].
  rewrite R, S. split; reflexivity.
Qed.

(** A response that [raise_for_status] lets through, with a JSON object
    that has no ["error"] key, is stored: the object as [metrics], its
    ["location"] ([None] when it has none) as [map_data], no error. *)
Theorem result_is_stored
        (previous : option session_state) (input : user_input)
        (endpoint reason : string) (status : Z) (fields : list (string * json)) :
  submitted input = true ->
  city_input input <> "" ->
  endpoint_map_get (radio input) = Some endpoint ->
  backend (API_BASE_URL ++ "/city/" ++ city_input input ++ "/" ++ endpoint)
  = Response status reason (inr (JObj fields)) ->
  (status < 400 \/ 600 <= status)%Z ->
  assoc "error" fields = None ->
  final (run_script backend previous input)
  = {| city := city_input input;
       analysis_type := radio input;
       map_data := match assoc "location" fields with Some v => v | None => JNull end;
       metrics := JObj fields;
       error := JNull |}.
Proof.
  intros sub ne E B ok no_error.
  destruct (run_through_fetching previous input) as (p1 & S & R & -> & _).
  assert (kind : analysis_type (session p1) = radio input) by (rewrite S; reflexivity).
  rewrite <- kind in E.
  pose proof (get_city_data_body (city_input input) _ E B ok) as G.
  destruct (data_fetching_got input p1 sub ne G) as (p' & -> & S' & _).
  unfold handle. cbn [str_in]. rewrite no_error.
  unfold seq at 1. cbn [update get_location eval ret].
  cbn [seq update ret page_after with_session session].
  unfold seq, ret, update. cbn [page_after with_session session].
  rewrite S', S. reflexivity.
Qed.

(** A JSON object with an ["error"] key is taken for a failure even under
    status 200: the value of the key becomes the error, nothing is stored
    as metrics or map data. *)
Theorem error_key_is_a_failure
        (previous : option session_state) (input : user_input)
        (endpoint reason : string) (status : Z) (fields : list (string * json))
        (value : json) :
  submitted input = true ->
  city_input input <> "" ->
  endpoint_map_get (radio input) = Some endpoint ->
  backend (API_BASE_URL ++ "/city/" ++ city_input input ++ "/" ++ endpoint)
  = Response status reason (inr (JObj fields)) ->
  (status < 400 \/ 600 <= status)%Z ->
  assoc "error" fields = Some value ->
  final (run_script backend previous input)
  = {| city := city_input input;
       analysis_type := radio input;
       map_data := JNull;
       metrics := JNull;
       error := value |}.
Proof.
  intros sub ne E B ok has_error.
  destruct (run_through_fetching previous input) as (p1 & S & R & -> & _).
  assert (kind : analysis_type (session p1) = radio input) by (rewrite S; reflexivity).
  rewrite <- kind in E.
  pose proof (get_city_data_body (city_input input) _ E B ok) as G.
  destruct (data_fetching_got input p1 sub ne G) as (p' & -> & S' & _).
  unfold handle. cbn [str_in getitem]. rewrite has_error.
  unfold seq, eval, ret, update. cbn [page_after with_session session].
  rewrite S', S. reflexivity.
Qed.



(** A body that is JSON but no object - [null], a boolean, a number, a
    string, a list - ends [handle] with an uncaught exception. *)
Lemma handle_non_object (data : json) (p : page) :
  (forall fields, data <> JObj fields) ->
  exists message p',
    handle data p = Halt (Crash message) p'
    /\ screen p' = screen p
    /\ error (session p') = error (session p)
    /\ map_data (session p') = map_data (session p).
Proof.
  intro H. unfold handle.
  destruct data as [|b|q|s|items|fields]; cbn [str_in].
  - eexists; eexists; split; [reflexivity|]. repeat split.
  - eexists; eexists; split; [reflexivity|]. repeat split.
  - eexists; eexists; split; [reflexivity|]. repeat split.
  - destruct (contains "error" s);
      (eexists; eexists; split; [reflexivity|]; repeat split).
  - destruct (existsb (json_is_str "error") items);
      (eexists; eexists; split; [reflexivity|]; repeat split).
  - destruct (H fields eq_refl).
Qed.

(** A response that [raise_for_status] lets through and whose body decodes
    to something other than an object kills the run with an uncaught
    exception: no error is stored, no banner, metric or map is drawn. *)
Theorem non_object_body_crashes
        (previous : option session_state) (input : user_input)
        (endpoint reason : string) (status : Z) (data : json) :
  submitted input = true ->
  city_input input <> "" ->
  endpoint_map_get (radio input) = Some endpoint ->
  backend (API_BASE_URL ++ "/city/" ++ city_input input ++ "/" ++ endpoint)
  = Response status reason (inr data) ->
  (status < 400 \/ 600 <= status)%Z ->
  (forall fields, data <> JObj fields) ->
  let r := run_script backend previous input in
  (exists message, ended r = Crashed message)
  /\ error (final r) = JNull
  /\ map_data (final r) = JNull
  /\ filter is_error_banner (drawn r) = []
  /\ filter shows_result (drawn r) = [].
Proof.
  intros sub ne E B ok shape r.
  set (start := {| session := App.initialize previous; screen := []; requested := [] |}).
  set (p1 := with_session (set_analysis_type (radio input))
               (draw (Radio "Select an Analysis" analyses)
                  (draw (FormSubmitButton "Analyze City")
                     (draw (TextInput "Enter a city:" (city (session start)))
                        (draw (Info "Real-time environmental insights for global cities, powered by Google Earth Engine.")
                           (draw (Title "🌍 HealthyCity Dashboard") start)))))).
  pose proof (get_city_data_body (city_input input) (analysis_type (session p1)) E B ok) as G.
  destruct (data_fetching_got input p1 sub ne G) as (p' & fetching & S' & _ & D').
  destruct (handle_non_object p' shape) as (message & p'' & crash & D'' & Er & Ma).
  assert (result : dashboard backend input start = Halt (Crash message) p'').
  { unfold dashboard.
    erewrite seq_Next by exact (sidebar_run input start).
    apply seq_Halt. exact (eq_trans fetching crash). }
  unfold r, run_script. fold start. cbv zeta. rewrite result.
  cbn [final drawn fetched ended page_after ending_of].
  split; [exists message; reflexivity|].
  rewrite Er, Ma, D'', D', S', !filter_app.
  repeat split.
Qed.




Lemma metrics_column_heat (p : page) (lst : Q) :
  truthy (metrics (session p)) = true ->
  analysis_type (session p) = "Heat Map" ->
  get_number "avg_lst_celsius" (metrics (session p)) = Return lst ->
  metrics_column p
  = Next tt (draw (Metric "Average Surface Temp." lst 2 " °C")
               (draw (Subheader "Metrics") p)).
Proof.
  intros T K L. unfold metrics_column.
  do 2 (erewrite seq_Next by reflexivity; cbv beta).
  cbn [session draw]. rewrite T, K, L. reflexivity.
Qed.


(** Whatever the map column does, what was on the page stays there. *)
Lemma map_column_keeps (p : page) (w : widget) :
  In w (screen p) -> In w (screen (page_after (map_column p))).
Proof.
  intro H. unfold map_column.
  do 2 (erewrite seq_Next by reflexivity; cbv beta).
  cbn [session draw].
  destruct (truthy (map_data (session p))).
  - unfold seq.
    destruct (getitem "lat" (map_data (session p))) as [lat|e]; cbn [eval ret uncaught].
    + destruct (getitem "lon" (map_data (session p))) as [lon|e]; cbn [eval ret uncaught].
      * cbn [st page_after]. apply in_draw_before, in_draw_before. exact H.
      * cbn [page_after]. apply in_draw_before. exact H.
    + cbn [page_after]. apply in_draw_before. exact H.
  - cbn [st page_after]. apply in_draw_before, in_draw_before. exact H.
Qed.

(** The error banner never ends the run and never touches the session. *)
Lemma error_banner_next (p : page) :
  exists p',
    error_banner p = Next tt p'
    /\ session p' = session p
    /\ forall w, In w (screen p) -> In w (screen p').
Proof.
  unfold error_banner.
  erewrite seq_Next by reflexivity. cbv beta.
  destruct (truthy (error (session p))).
  - eexists. split; [reflexivity|]. split; [reflexivity|].
    intros w H. apply in_draw_before. exact H.
  - exists p. auto.
Qed.



(** Metrics outlive the selection they were fetched for.  With a result of
    another kind in the session - an object without ["avg_lst_celsius"] -
    choosing "Heat Map" without submitting draws a surface temperature of
    0, and requests nothing. *)
Theorem stale_metrics_read_as_zero
        (s : session_state) (city_text : string) (fields : list (string * json)) :
  metrics s = JObj fields ->
  fields <> [] ->
  assoc "avg_lst_celsius" fields = None ->
  let r := run_script backend (Some s)
             {| city_input := city_text; submitted := false; radio := "Heat Map" |} in
  In (Metric "Average Surface Temp." 0 2 " °C") (drawn r)
  /\ fetched r = []
  /\ metrics (final r) = JObj fields.
Proof.
  intros M full missing r.
  set (input := {| city_input := city_text; submitted := false; radio := "Heat Map" |}) in *.
  set (start := {| session := App.initialize (Some s); screen := []; requested := [] |}).
  set (p1 := with_session (set_analysis_type (radio input))
               (draw (Radio "Select an Analysis" analyses)
                  (draw (FormSubmitButton "Analyze City")
                     (draw (TextInput "Enter a city:" (city (session start)))
                        (draw (Info "Real-time environmental insights for global cities, powered by Google Earth Engine.")
                           (draw (Title "🌍 HealthyCity Dashboard") start)))))).
  set (p3 := draw (Markdown "Analyzing Land Surface Temperature (LST) to identify heat islands using thermal bands from Landsat 8 satellite.")
               (draw (Header "🔥 Urban Heat Map") p1)).
  destruct (error_banner_next p3) as (p4 & banner & S4 & _).
  assert (M4 : metrics (session p4) = JObj fields) by (rewrite S4; exact M).
  set (p5 := draw (Metric "Average Surface Temp." 0 2 " °C")
               (draw (Subheader "Metrics") p4)).
  assert (result : dashboard backend input start = map_column p5).
  { unfold dashboard.
    erewrite seq_Next by exact (sidebar_run input start).
    erewrite seq_Next by reflexivity.
    erewrite seq_Next by (apply (@main_page_title_heat p1); reflexivity).
    erewrite seq_Next by exact banner.
    erewrite seq_Next
      by (apply (@metrics_column_heat p4 0);
          [ rewrite M4; destruct fields; [destruct (full eq_refl) | reflexivity]
          | rewrite S4; reflexivity
          | rewrite M4; cbn [get_number]; rewrite missing; reflexivity ]).
    reflexivity. }
  unfold r, run_script. fold start. cbv zeta. rewrite result.
  cbn [final drawn fetched].
  split; [|split].
  - apply map_column_keeps. apply in_draw.
  - destruct (map_column_only_draws p5) as [_ ->]. unfold p5. cbn [draw requested].
    destruct (error_banner_only_draws p3) as [_ R4]. rewrite banner in R4. exact R4.
  - destruct (map_column_only_draws p5) as [-> _]. exact M4.
Qed.

End DashboardFetching.

Section DashboardFetchingRuns.

Import App.
Open Scope string_scope.

Lemma one_request_per_submission_witness :
  fetched (run_script Demo.answering_null (Some Demo.showing_paris)
             (Demo.submit "new york" "Heat Map"))
  = [API_BASE_URL ++ "/city/" ++ "new york" ++ "/" ++ "heatmap"]
  /\ city (final (run_script Demo.answering_null (Some Demo.showing_paris)
                    (Demo.submit "new york" "Heat Map"))) = "new york".
Proof.
  apply (@one_request_per_submission Demo.answering_null (Some Demo.showing_paris)
           (Demo.submit "new york" "Heat Map") "heatmap").
  - reflexivity.
  - discriminate.
  - reflexivity.
Defined.

Lemma result_is_stored_witness :
  final (run_script Demo.answering_300 None (Demo.submit "Paris" "Green Cover"))
  = {| city := "Paris";
       analysis_type := "Green Cover";
       map_data := JNull;
       metrics := JObj [("message", JStr "choose one")];
       error := JNull |}.
Proof.
  apply (@result_is_stored Demo.answering_300 None (Demo.submit "Paris" "Green Cover")
           "green" "Multiple Choices" 300 [("message", JStr "choose one")]).
  - reflexivity.
  - discriminate.
  - reflexivity.
  - reflexivity.
  - lia.
  - reflexivity.
Defined.

Lemma error_key_is_a_failure_witness :
  final (run_script Demo.answering_error_key (Some Demo.showing_paris)
           (Demo.submit "Lyon" "Green Cover"))
  = {| city := "Lyon";
       analysis_type := "Green Cover";
       map_data := JNull;
       metrics := JNull;
       error := JStr "quota exceeded" |}.
Proof.
  apply (@error_key_is_a_failure Demo.answering_error_key (Some Demo.showing_paris)
           (Demo.submit "Lyon" "Green Cover") "green" "OK" 200
           [("error", JStr "quota exceeded")] (JStr "quota exceeded")).
  - reflexivity.
  - discriminate.
  - reflexivity.
  - reflexivity.
  - lia.
  - reflexivity.
Defined.


Lemma non_object_body_crashes_witness :
  (exists message,
      ended (run_script Demo.answering_null (Some Demo.showing_paris)
               (Demo.submit "Lyon" "Heat Map")) = Crashed message)
  /\ error (final (run_script Demo.answering_null (Some Demo.showing_paris)
                     (Demo.submit "Lyon" "Heat Map"))) = JNull
  /\ map_data (final (run_script Demo.answering_null (Some Demo.showing_paris)
                        (Demo.submit "Lyon" "Heat Map"))) = JNull
  /\ filter is_error_banner
       (drawn (run_script Demo.answering_null (Some Demo.showing_paris)
                 (Demo.submit "Lyon" "Heat Map"))) = []
  /\ filter shows_result
       (drawn (run_script Demo.answering_null (Some Demo.showing_paris)
                 (Demo.submit "Lyon" "Heat Map"))) = [].
Proof.
  apply (@non_object_body_crashes Demo.answering_null (Some Demo.showing_paris)
           (Demo.submit "Lyon" "Heat Map") "heatmap" "OK" 200 JNull).
  - reflexivity.
  - discriminate.
  - reflexivity.
  - reflexivity.
  - lia.
  - discriminate.
Defined.



Lemma stale_metrics_read_as_zero_witness :
  In (Metric "Average Surface Temp." 0 2 " °C")
     (drawn (run_script Demo.refusing (Some Demo.showing_paris)
               {| city_input := "Paris"; submitted := false; radio := "Heat Map" |}))
  /\ fetched (run_script Demo.refusing (Some Demo.showing_paris)
                {| city_input := "Paris"; submitted := false; radio := "Heat Map" |}) = []
  /\ metrics (final (run_script Demo.refusing (Some Demo.showing_paris)
                       {| city_input := "Paris"; submitted := false; radio := "Heat Map" |}))
     = JObj [ ("city", JStr (title "Paris"));
              ("location", JObj [("lat", JNum 48.8566); ("lon", JNum 2.3522)]);
              ("avg_ndvi", JNum (1400 # 4000));
              ("green_cover_percentage", JNum (Main.green_cover_percentage (1400 # 4000)));
              ("data_source", JStr "Copernicus Sentinel-2") ].
Proof.
  apply (@stale_metrics_read_as_zero Demo.refusing Demo.showing_paris "Paris").
  - reflexivity.
  - discriminate.
  - reflexivity.
Defined.

End DashboardFetchingRuns.

(* ================================================================== *)
(** * The helper module and the endpoints *)
(* ================================================================== *)

Section Helpers.

Open Scope Q_scope.

(** The helper's vegetation score ([get_ndvi], [ndvi * 100]) and the
    endpoint's ([get_green_cover], [(avg_ndvi + 1) * 50]) agree at an index
    of 1 and nowhere else; below 1 the helper's is the smaller one, and
    it is negative for a negative index. *)
Theorem helper_green_score_differs (v : Q) :
  exists score,
    getitem "green_pct" (GeeData.get_ndvi v) = Return (JNum score)
    /\ (score == Main.green_cover_percentage v <-> v == 1)
    /\ (v < 1 -> score < Main.green_cover_percentage v)
    /\ (v < 0 -> score < 0).
Proof.
  exists (v * 100). split; [reflexivity|].
  unfold Main.green_cover_percentage.
  repeat split; intros; lra.
Qed.

Lemma avg_temp_above_lst_celsius_witness :
  Main.lst_celsius 15000 < GeeData.avg_temp 15000.
Proof.
  apply (@avg_temp_above_lst_celsius 15000). discriminate.
Defined.

End Helpers.

Section CityNames.

Import Main.
Open Scope string_scope.

Variable geocoder : string -> http_reply.
Variable earth_engine : catalogue_query -> ee_reply.
Variable ee_not_initialized : string.
Variable srv : server.

Let green := get_green_cover geocoder earth_engine ee_not_initialized srv.
Let heat := get_heat_map geocoder earth_engine ee_not_initialized srv.






End CityNames.

Section CityNamesRuns.

Import Main.
Open Scope string_scope.


End CityNamesRuns.

(* ================================================================== *)
(** * Line 101 in binary64: the range *)
(* ================================================================== *)

Section Binary64Range.

Local Unset Implicit Arguments.
Open Scope Z_scope.

(** The number of binary digits of a positive number. *)
Lemma digits2_pos_bounds (p : positive) :
  2 ^ (Z.pos (digits2_pos p) - 1) <= Z.pos p < 2 ^ Z.pos (digits2_pos p).
Proof.
  induction p as [p IH|p IH|]; cbn [digits2_pos].
  - rewrite Pos2Z.inj_succ.
    replace (Z.succ (Z.pos (digits2_pos p)) - 1) with (Z.succ (Z.pos (digits2_pos p) - 1)) by lia.
    rewrite !Z.pow_succ_r by lia. lia.
  - rewrite Pos2Z.inj_succ.
    replace (Z.succ (Z.pos (digits2_pos p)) - 1) with (Z.succ (Z.pos (digits2_pos p) - 1)) by lia.
    rewrite !Z.pow_succ_r by lia. lia.
  - cbn. lia.
Qed.

(** The library iterates its shift over a [positive]; the same over [nat]. *)
Lemma iter_pos_nat (A : Type) (f : A -> A) (p : positive) (x : A) :
  iter_pos f p x = Nat.iter (Pos.to_nat p) f x.
Proof.
  revert x. induction p as [p IH|p IH|]; intro x; cbn [iter_pos].
  - rewrite !IH. rewrite Pos2Nat.inj_xI.
    replace (S (2 * Pos.to_nat p))%nat with (Pos.to_nat p + (Pos.to_nat p + 1))%nat by lia.
    rewrite !Nat.iter_add. reflexivity.
  - rewrite !IH. rewrite Pos2Nat.inj_xO.
    replace (2 * Pos.to_nat p)%nat with (Pos.to_nat p + Pos.to_nat p)%nat by lia.
    rewrite !Nat.iter_add. reflexivity.
  - reflexivity.
Qed.

(** One more shift keeps the invariant. *)
Lemma shifted_shr_1 (orig k : Z) (mrs : shr_record) :
  0 <= k -> Binary64.shifted orig k mrs -> Binary64.shifted orig (k + 1) (shr_1 mrs).
Proof.
  intros Hk (Hm & t & E & Ht & Hz). unfold Binary64.shifted.
  destruct mrs as [m r s]. cbn [shr_m shr_r shr_s] in *.
  assert (P : 2 ^ (k + 1) = 2 * 2 ^ k) by (rewrite Z.pow_add_r, Z.pow_1_r by lia; lia).
  rewrite P.
  destruct m as [|[p|p|]|p]; cbn [shr_1 shr_m shr_r shr_s]; try lia.
  - split; [lia|]. exists t. split; [lia|split; [lia|]].
    intro H; destruct (Hz H) as [-> ->]; auto.
  - split; [lia|]. exists (2 ^ k + t). split; [lia|split; [lia|]]. lia.
  - split; [lia|]. exists t. split; [lia|split; [lia|]].
    intro H; destruct (Hz H) as [-> ->]; auto.
  - split; [lia|]. exists (2 ^ k + t). split; [lia|split; [lia|]]. lia.
Qed.

Lemma shifted_iter (orig : Z) (n : nat) (mrs : shr_record) :
  Binary64.shifted orig 0 mrs -> Binary64.shifted orig (Z.of_nat n) (Nat.iter n shr_1 mrs).
Proof.
  intro H. induction n as [|n IH].
  - exact H.
  - rewrite Nat2Z.inj_succ, <- Z.add_1_r. cbn [Nat.iter].
    apply shifted_shr_1; [lia | exact IH].
Qed.

Lemma shifted_start (m : Z) : 0 <= m -> Binary64.shifted m 0 (Build_shr_record m false false).
Proof.
  intro H. split; [exact H|]. exists 0. cbn. repeat split; lia.
Qed.

(** [shr] by [n] places, from an exact start. *)
Lemma shr_exact (m e n : Z) :
  0 <= m ->
  let '(mrs, e') := shr (Build_shr_record m false false) e n in
  (0 < n -> e' = e + n /\ Binary64.shifted m n mrs)
  /\ (n <= 0 -> e' = e /\ mrs = Build_shr_record m false false).
Proof.
  intro H. destruct n as [|p|p]; cbn [shr].
  - split; [lia|auto].
  - split; [|lia]. intros _. split; [reflexivity|].
    rewrite iter_pos_nat. rewrite <- (positive_nat_Z p).
    apply shifted_iter, shifted_start, H.
  - split; [lia|auto].
Qed.

(** Rounding to nearest-even moves the kept part by at most one, and not
    at all when nothing was shifted out. *)
Lemma round_nearest_even_bounds (mrs : shr_record) :
  let q := shr_m mrs in
  let m := round_nearest_even q (loc_of_shr_record mrs) in
  q <= m <= q + 1 /\ (shr_r mrs = false -> shr_s mrs = false -> m = q).
Proof.
  destruct mrs as [q [|] [|]]; cbn; try destruct (Z.even q); split; try lia; try discriminate.
Qed.

Lemma fexp_64 (e : Z) : fexp prec emax e = Binary64.fexp64 e.
Proof. reflexivity. Qed.

(** Order of two positive finite floats, read off exponent and mantissa. *)
Lemma SFleb_finite (m1 m2 : positive) (e1 e2 : Z) :
  e1 < e2 \/ (e1 = e2 /\ Z.pos m1 <= Z.pos m2) ->
  SFleb (S754_finite false m1 e1) (S754_finite false m2 e2) = true.
Proof.
  intro H. unfold SFleb, SFcompare.
  destruct (Z.compare_spec e1 e2) as [E|E|E].
  - rewrite Pos.compare_cont_spec. cbn [Pos.switch_Eq].
    destruct (Pos.compare_spec m1 m2); try reflexivity. lia.
  - reflexivity.
  - lia.
Qed.

Lemma SFleb_zero_finite (s : bool) (m : positive) (e : Z) :
  SFleb (S754_zero s) (S754_finite false m e) = true.
Proof. reflexivity. Qed.

(** The shift that brings a number to the precision of binary64. *)
Lemma shr_fexp_exact (m e : Z) :
  0 <= m ->
  let '(mrs, e') := shr_fexp prec emax m e loc_Exact in
  let n := Binary64.fexp64 (Zdigits2 m + e) - e in
  (0 < n -> e' = e + n /\ Binary64.shifted m n mrs)
  /\ (n <= 0 -> e' = e /\ mrs = Build_shr_record m false false).
Proof.
  intro H. unfold shr_fexp. cbn [shr_record_of_loc]. rewrite fexp_64.
  exact (shr_exact m e (Binary64.fexp64 (Zdigits2 m + e) - e) H).
Qed.

Lemma Zdigits2_bounds (m : Z) :
  0 < m -> 2 ^ (Zdigits2 m - 1) <= m < 2 ^ Zdigits2 m /\ 1 <= Zdigits2 m.
Proof.
  destruct m as [|p|p]; try lia. intros _. cbn [Zdigits2].
  split; [apply digits2_pos_bounds | lia].
Qed.

Lemma pow2_lt_exp (a b : Z) : 0 <= b -> 2 ^ a < 2 ^ b -> a < b.
Proof. intros Hb H. apply (Z.pow_lt_mono_r_iff 2); lia. Qed.

(** Rounding is monotone against a canonical float: a number that is not
    above the value of [mb * 2^eb] is rounded to a float that is not above
    it, and that is not below zero. *)
Lemma binary_round_aux_upper (mx mb : positive) (ex eb : Z) :
  ex <= Binary64.fexp64 (Z.pos (digits2_pos mx) + ex) ->
  Binary64.fexp64 (Z.pos (digits2_pos mb) + eb) = eb ->
  eb <= 971 ->
  ex <= eb ->
  Z.pos mx <= Z.pos mb * 2 ^ (eb - ex) ->
  let r := binary_round_aux prec emax false (Z.pos mx) ex loc_Exact in
  SFleb r (S754_finite false mb eb) = true /\ SFleb (S754_zero false) r = true.
Proof.
  intros pre canon top le_e bound r.
  pose proof (digits2_pos_bounds mx) as Dx.
  pose proof (digits2_pos_bounds mb) as Db.
  set (d := Z.pos (digits2_pos mx)) in *.
  set (db := Z.pos (digits2_pos mb)) in *.
  assert (1 <= d) by (unfold d; lia).
  assert (1 <= db) by (unfold db; lia).
  assert (db <= 53) by (unfold Binary64.fexp64 in canon; lia).
  assert (mag : d + ex <= db + eb).
  { assert (P : 2 ^ (d - 1) < 2 ^ (db + (eb - ex))).
    { rewrite Z.pow_add_r by lia.
      assert (0 < 2 ^ (eb - ex)) by (apply Z.pow_pos_nonneg; lia). nia. }
    apply pow2_lt_exp in P; lia. }
  set (e1 := Binary64.fexp64 (d + ex)) in *.
  assert (e1 <= eb) by (unfold e1, Binary64.fexp64 in *; lia).
  assert (-1074 <= e1) by (unfold e1, Binary64.fexp64; lia).
  assert (d + ex - 53 <= e1) by (unfold e1, Binary64.fexp64; lia).
  unfold r, binary_round_aux.
  pose proof (shr_fexp_exact (Z.pos mx) ex ltac:(lia)) as S1.
  destruct (shr_fexp prec emax (Z.pos mx) ex loc_Exact) as [mrs e'].
  cbn [Zdigits2] in S1. fold d in S1. fold e1 in S1. cbv zeta in S1.
  set (m2 := round_nearest_even (shr_m mrs) (loc_of_shr_record mrs)).
  assert (F : e' = e1 /\ 0 <= m2 <= Z.pos mb * 2 ^ (eb - e1) /\ m2 <= 2 ^ 53).
  { destruct (Z_lt_le_dec 0 (e1 - ex)) as [shift|same].
    - destruct S1 as [S1 _]. destruct (S1 shift) as (E' & Hq & t & E & Ht & Hz).
      pose proof (round_nearest_even_bounds mrs) as [R1 R2]. fold m2 in R1, R2.
      set (q := shr_m mrs) in *.
      assert (N : 0 < 2 ^ (e1 - ex)) by (apply Z.pow_pos_nonneg; lia).
      assert (A : 0 < 2 ^ (eb - e1)) by (apply Z.pow_pos_nonneg; lia).
      assert (split_e : 2 ^ (eb - ex) = 2 ^ (eb - e1) * 2 ^ (e1 - ex)).
      { rewrite <- Z.pow_add_r by lia. f_equal. lia. }
      assert (big : 2 ^ d <= 2 ^ 53 * 2 ^ (e1 - ex)).
      { rewrite <- Z.pow_add_r by lia. apply Z.pow_le_mono_r; lia. }
      rewrite split_e in bound.
      set (NN := 2 ^ (e1 - ex)) in *. set (AA := 2 ^ (eb - e1)) in *.
      split; [lia|]. split; [split|].
      + lia.
      + destruct (Z.eq_dec t 0) as [t0|tn].
        * destruct (Hz t0) as [r0 s0]. rewrite (R2 r0 s0). nia.
        * assert (q < Z.pos mb * AA) by nia. lia.
      + assert (q < 2 ^ 53) by nia. lia.
    - destruct S1 as [_ S1]. destruct (S1 same) as (E' & ->).
      assert (e1 = ex) by lia.
      unfold m2. cbn [shr_m loc_of_shr_record round_nearest_even].
      split; [lia|]. split; [split; [lia|]|].
      + replace (eb - e1) with (eb - ex) by lia. exact bound.
      + assert (2 ^ d <= 2 ^ 53) by (apply Z.pow_le_mono_r; lia). lia. }
  destruct F as (-> & [m2_nonneg m2_le] & m2_small).
  clearbody m2. clear S1 mrs.
  assert (A : 0 < 2 ^ (eb - e1)) by (apply Z.pow_pos_nonneg; lia).
  pose proof (shr_fexp_exact m2 e1 m2_nonneg) as S2.
  destruct (shr_fexp prec emax m2 e1 loc_Exact) as [mrs2 e2]. cbv zeta in S2.
  destruct (Z.eq_dec m2 0) as [->|m2_pos].
  - destruct S2 as [_ S2]. cbn [Zdigits2] in S2.
    destruct S2 as (-> & ->); [unfold Binary64.fexp64; lia|].
    cbn. auto.
  - destruct (Zdigits2_bounds m2 ltac:(lia)) as [[D2 D2'] D2''].
    set (d2 := Zdigits2 m2) in *.
    assert (d2 <= 54).
    { assert (P : 2 ^ (d2 - 1) < 2 ^ 54).
      { change (2 ^ 54) with (2 * 2 ^ 53). lia. }
      apply pow2_lt_exp in P; lia. }
    destruct (Z_le_gt_dec d2 53) as [normal|carry].
    + destruct S2 as [_ S2].
      destruct S2 as (-> & ->); [unfold Binary64.fexp64; lia|].
      destruct m2 as [|p2|p2]; try lia.
      cbn [shr_m]. change (emax - prec) with 971.
      replace (e1 <=? 971) with true by (symmetry; apply Z.leb_le; lia).
      split; [|reflexivity].
      apply SFleb_finite.
      destruct (Z.eq_dec e1 eb) as [same|]; [right|left; lia].
      split; [exact same|].
      rewrite same, Z.sub_diag, Z.pow_0_r in m2_le. lia.
    + assert (d2 = 54) by lia.
      assert (m2 = 2 ^ 53).
      { replace (d2 - 1) with 53 in D2 by lia. lia. }
      assert (e1 < eb).
      { destruct (Z.eq_dec e1 eb) as [same|]; [|lia].
        rewrite same, Z.sub_diag, Z.pow_0_r in m2_le.
        assert (2 ^ db <= 2 ^ 53) by (apply Z.pow_le_mono_r; lia). lia. }
      destruct S2 as [S2 _].
      destruct S2 as (-> & Hq & t & E & Ht & Hz); [unfold Binary64.fexp64; lia|].
      replace (Binary64.fexp64 (d2 + e1) - e1) with 1 in * by (unfold Binary64.fexp64; lia).
      change (2 ^ 1) with 2 in *.
      assert (Q : shr_m mrs2 = 2 ^ 52).
      { change (2 ^ 53) with (2 * 2 ^ 52) in *. lia. }
      rewrite Q. change (2 ^ 52) with (Z.pos 4503599627370496).
      change (emax - prec) with 971.
      replace (e1 + 1 <=? 971) with true by (symmetry; apply Z.leb_le; lia).
      split; [|reflexivity].
      apply SFleb_finite.
      destruct (Z.eq_dec (e1 + 1) eb) as [same|]; [right|left; lia].
      split; [exact same|].
      replace (eb - e1) with 1 in m2_le by lia.
      change (2 ^ 1) with 2 in m2_le.
      change (Z.pos 4503599627370496) with (2 ^ 52).
      change (2 ^ 53) with (2 * 2 ^ 52) in *. lia.
Qed.

(** [shl_align]: the left shift that lowers an exponent keeps the value. *)
Lemma iter_xO_value (p d : positive) :
  Z.pos (Pos.iter xO p d) = Z.pos p * 2 ^ Z.pos d
  /\ Z.pos (digits2_pos (Pos.iter xO p d)) = Z.pos (digits2_pos p) + Z.pos d.
Proof.
  induction d as [|d IH] using Pos.peano_ind.
  - cbn [Pos.iter digits2_pos]. rewrite Pos2Z.inj_succ. split; lia.
  - rewrite Pos.iter_succ. cbn [digits2_pos].
    rewrite !Pos2Z.inj_succ, Z.pow_succ_r by lia.
    destruct IH as [V D]. rewrite Pos2Z.inj_xO, V, D. split; lia.
Qed.

Lemma shl_align_spec (p : positive) (ex ex' : Z) :
  let '(p', e') := shl_align p ex ex' in
  (ex' < ex ->
   e' = ex' /\ Z.pos p' = Z.pos p * 2 ^ (ex - ex')
   /\ Z.pos (digits2_pos p') = Z.pos (digits2_pos p) + (ex - ex'))
  /\ (ex <= ex' -> e' = ex /\ p' = p).
Proof.
  unfold shl_align.
  destruct (ex' - ex) as [|d|d] eqn:E.
  - split; [lia|auto].
  - split; [lia|auto].
  - split; [|lia]. intros _.
    destruct (iter_xO_value p d) as [V D].
    replace (ex - ex') with (Z.pos d) by lia. auto.
Qed.

(** A canonical positive float below a power of two, [2^52 * 2^eb]. *)
Lemma SFleb_pow2_inv (m : positive) (e eb : Z) :
  Binary64.fexp64 (Z.pos (digits2_pos m) + e) = e ->
  SFleb (S754_finite false m e) (S754_finite false 4503599627370496 eb) = true ->
  e <= eb /\ Z.pos m <= 2 ^ 52 * 2 ^ (eb - e).
Proof.
  intros canon H. unfold SFleb, SFcompare in H.
  pose proof (digits2_pos_bounds m) as D.
  assert (Z.pos (digits2_pos m) <= 53) by (unfold Binary64.fexp64 in canon; lia).
  assert (S : 2 ^ Z.pos (digits2_pos m) <= 2 ^ 53) by (apply Z.pow_le_mono_r; lia).
  destruct (Z.compare_spec e eb) as [E|E|E]; [| |discriminate].
  - rewrite Pos.compare_cont_spec in H. cbn [Pos.switch_Eq] in H.
    rewrite E, Z.sub_diag, Z.pow_0_r, Z.mul_1_r. split; [lia|].
    assert (L : (m <= 4503599627370496)%positive).
    { intro G. rewrite G in H. discriminate. }
    exact (Pos2Z.pos_le_pos m 4503599627370496 L).
  - split; [lia|].
    assert (P : 2 ^ 1 <= 2 ^ (eb - e)) by (apply Z.pow_le_mono_r; lia).
    rewrite Z.pow_1_r in P.
    replace (2 ^ 53) with (2 ^ 52 * 2) in S by reflexivity.
    assert (Q52 : 0 < 2 ^ 52) by reflexivity.
    set (a := 2 ^ 52) in *. set (b := 2 ^ (eb - e)) in *.
    set (c := 2 ^ Z.pos (digits2_pos m)) in *. clearbody a b c. clear - S D P Q52. nia.
Qed.

(** The same below zero: a canonical negative float above [- 2^52 * 2^eb]. *)
Lemma SFleb_neg_pow2_inv (m : positive) (e eb : Z) :
  Binary64.fexp64 (Z.pos (digits2_pos m) + e) = e ->
  SFleb (S754_finite true 4503599627370496 eb) (S754_finite true m e) = true ->
  e <= eb /\ Z.pos m <= 2 ^ 52 * 2 ^ (eb - e).
Proof.
  intros canon H. unfold SFleb, SFcompare in H.
  pose proof (digits2_pos_bounds m) as D.
  assert (Z.pos (digits2_pos m) <= 53) by (unfold Binary64.fexp64 in canon; lia).
  assert (S : 2 ^ Z.pos (digits2_pos m) <= 2 ^ 53) by (apply Z.pow_le_mono_r; lia).
  destruct (Z.compare_spec eb e) as [E|E|E]; [|discriminate|].
  - rewrite Pos.compare_cont_spec in H. cbn [Pos.switch_Eq CompOpp] in H.
    rewrite E, Z.sub_diag, Z.pow_0_r, Z.mul_1_r. split; [lia|].
    assert (L : (m <= 4503599627370496)%positive).
    { apply Pos.ge_le. intro G. rewrite G in H. discriminate. }
    exact (Pos2Z.pos_le_pos m 4503599627370496 L).
  - split; [lia|].
    assert (P : 2 ^ 1 <= 2 ^ (eb - e)) by (apply Z.pow_le_mono_r; lia).
    rewrite Z.pow_1_r in P.
    replace (2 ^ 53) with (2 ^ 52 * 2) in S by reflexivity.
    assert (Q52 : 0 < 2 ^ 52) by reflexivity.
    set (a := 2 ^ 52) in *. set (b := 2 ^ (eb - e)) in *.
    set (c := 2 ^ Z.pos (digits2_pos m)) in *. clearbody a b c. clear - S D P Q52. nia.
Qed.

Lemma digits2_pos_lower (p : positive) (k : Z) :
  0 <= k -> 2 ^ k <= Z.pos p -> k + 1 <= Z.pos (digits2_pos p).
Proof.
  intros Hk H. pose proof (digits2_pos_bounds p) as [_ D].
  assert (P : 2 ^ k < 2 ^ Z.pos (digits2_pos p)) by lia.
  apply pow2_lt_exp in P; lia.
Qed.

(** Rounding a positive number that is not above a canonical float gives a
    float that is not above it, and not below zero. *)
Lemma binary_round_upper (p mb : positive) (ex eb : Z) :
  Binary64.fexp64 (Z.pos (digits2_pos mb) + eb) = eb ->
  eb <= 971 ->
  ex <= eb ->
  Z.pos p <= Z.pos mb * 2 ^ (eb - ex) ->
  let r := binary_round prec emax false p ex in
  SFleb r (S754_finite false mb eb) = true /\ SFleb (S754_zero false) r = true.
Proof.
  intros canon top le_e bound r. unfold r, binary_round. rewrite fexp_64.
  pose proof (shl_align_spec p ex (Binary64.fexp64 (Z.pos (digits2_pos p) + ex))) as A.
  destruct (shl_align p ex (Binary64.fexp64 (Z.pos (digits2_pos p) + ex))) as [mz ez].
  destruct (Z_lt_le_dec (Binary64.fexp64 (Z.pos (digits2_pos p) + ex)) ex) as [lt|ge].
  - destruct A as [A _]. destruct (A lt) as (Ez & V & D).
    apply binary_round_aux_upper.
    + rewrite D. replace (Z.pos (digits2_pos p) + (ex - Binary64.fexp64 (Z.pos (digits2_pos p) + ex)) + ez)
        with (Z.pos (digits2_pos p) + ex) by lia. lia.
    + exact canon.
    + exact top.
    + lia.
    + rewrite V, <- Ez.
      replace (eb - ez) with ((eb - ex) + (ex - ez)) by lia.
      rewrite Z.pow_add_r by lia.
      assert (0 < 2 ^ (ex - ez)) by (apply Z.pow_pos_nonneg; lia).
      set (a := 2 ^ (ex - ez)) in *. set (b := 2 ^ (eb - ex)) in *.
      clearbody a b. clear - bound H. nia.
  - destruct A as [_ A]. destruct (A ge) as (-> & ->).
    apply binary_round_aux_upper; assumption.
Qed.

(** A valid finite float is canonical. *)
Lemma valid_canonical (s : bool) (m : positive) (e : Z) :
  valid_binary (S754_finite s m e) = true ->
  Binary64.fexp64 (Z.pos (digits2_pos m) + e) = e.
Proof.
  cbn [valid_binary]. unfold bounded, canonical_mantissa. rewrite fexp_64.
  intro H. apply andb_true_iff in H. destruct H as [H _].
  apply Z.eqb_eq in H. exact H.
Qed.

(** [x + 1] for [-1 <= x <= 1]: between 0 and 2. *)
Lemma SFadd_one_range (x : spec_float) :
  valid_binary x = true ->
  SFleb (S754_finite true 4503599627370496 (-52)) x = true ->
  SFleb x (S754_finite false 4503599627370496 (-52)) = true ->
  let s := SFadd prec emax x (S754_finite false 4503599627370496 (-52)) in
  SFleb (S754_zero false) s = true
  /\ SFleb s (S754_finite false 4503599627370496 (-51)) = true.
Proof.
  intros valid lo hi s. unfold s.
  destruct x as [z|[|]| |sg m e]; try discriminate.
  - destruct z; split; reflexivity.
  - apply valid_canonical in valid.
    assert (B : e <= -52 /\ Z.pos m <= 2 ^ 52 * 2 ^ (-52 - e)).
    { destruct sg.
      - apply SFleb_neg_pow2_inv; assumption.
      - apply SFleb_pow2_inv; assumption. }
    destruct B as [Be Bm].
    cbn [SFadd]. cbv zeta. rewrite Z.min_l by lia.
    pose proof (shl_align_spec m e e) as A1.
    destruct (shl_align m e e) as [m1 e1].
    destruct A1 as [_ A1]. destruct (A1 ltac:(lia)) as (_ & ->). clear A1.
    pose proof (shl_align_spec 4503599627370496 (-52) e) as A2.
    destruct (shl_align 4503599627370496 (-52) e) as [m2 e2].
    assert (V : Z.pos m2 = 2 ^ 52 * 2 ^ (-52 - e)).
    { destruct (Z_lt_le_dec e (-52)) as [lt|ge].
      - destruct A2 as [A2 _]. destruct (A2 lt) as (_ & V & _). exact V.
      - destruct A2 as [_ A2]. destruct (A2 ge) as (_ & ->).
        replace e with (-52) by lia. reflexivity. }
    clear A2. cbn [fst].
    assert (P : 0 < 2 ^ (-52 - e)) by (apply Z.pow_pos_nonneg; lia).
    assert (D : 2 ^ (-51 - e) = 2 * 2 ^ (-52 - e)).
    { replace (-51 - e) with (Z.succ (-52 - e)) by lia. apply Z.pow_succ_r. lia. }
    assert (Q52 : 0 < 2 ^ 52) by reflexivity.
    set (a := 2 ^ 52) in *. set (b := 2 ^ (-52 - e)) in *.
    destruct (cond_Zopp sg (Z.pos m) + cond_Zopp false (Z.pos m2)) as [|q|q] eqn:sum;
      cbn [binary_normalize].
    + split; reflexivity.
    + assert (bound : Z.pos q <= Z.pos 4503599627370496 * 2 ^ (-51 - e)).
      { change (Z.pos 4503599627370496) with a. rewrite D.
        cbn [cond_Zopp] in sum. clearbody a b.
        destruct sg; cbn [cond_Zopp] in sum; nia. }
      destruct (@binary_round_upper q 4503599627370496 e (-51)) as [U L].
      * reflexivity.
      * lia.
      * lia.
      * exact bound.
      * split; assumption.
    + exfalso. cbn [cond_Zopp] in sum. clearbody a b.
      destruct sg; cbn [cond_Zopp] in sum; nia.
Qed.

(** [s * 50] for [0 <= s <= 2]: between 0 and 100. *)
Lemma SFmul_fifty_range (s : spec_float) :
  valid_binary s = true ->
  SFleb (S754_zero false) s = true ->
  SFleb s (S754_finite false 4503599627370496 (-51)) = true ->
  let r := SFmul prec emax s (S754_finite false 7036874417766400 (-47)) in
  SFleb (S754_zero false) r = true
  /\ SFleb r (S754_finite false 7036874417766400 (-46)) = true.
Proof.
  intros valid lo hi r. unfold r.
  destruct s as [z|[|]| |sg m e]; try discriminate.
  - destruct z; split; reflexivity.
  - destruct sg; [discriminate|].
    apply valid_canonical in valid.
    destruct (SFleb_pow2_inv m e (-51) valid hi) as [Be Bm].
    cbn [SFmul xorb].
    pose proof (digits2_pos_bounds m) as [Dm _].
    assert (P : 0 < 2 ^ (-51 - e)) by (apply Z.pow_pos_nonneg; lia).
    assert (E1 : 2 ^ (-46 - (e + -47)) = 2 ^ 52 * 2 ^ (-51 - e)).
    { rewrite <- Z.pow_add_r by lia. f_equal. lia. }
    assert (M : 2 ^ 52 <= Z.pos 7036874417766400) by (intro c; discriminate c).
    assert (Q52 : 0 < 2 ^ 52) by reflexivity.
    assert (big : 2 ^ (Z.pos (digits2_pos m) - 1 + 52)
                  <= Z.pos (m * 7036874417766400)).
    { rewrite Z.pow_add_r by lia. rewrite Pos2Z.inj_mul.
      set (a := 2 ^ 52) in *. set (c := Z.pos 7036874417766400) in *.
      set (d := 2 ^ (Z.pos (digits2_pos m) - 1)) in *.
      clearbody a c d. clear - Dm M Q52. nia. }
    apply digits2_pos_lower in big; [|lia].
    destruct (@binary_round_aux_upper (m * 7036874417766400) 7036874417766400
                (e + -47) (-46)) as [U L].
    + unfold Binary64.fexp64. lia.
    + reflexivity.
    + lia.
    + lia.
    + rewrite E1, Pos2Z.inj_mul.
      set (a := 2 ^ 52) in *. set (c := Z.pos 7036874417766400) in *.
      set (b := 2 ^ (-51 - e)) in *.
      assert (0 < c) by reflexivity.
      clearbody a c b. clear - Bm H. nia.
    + split; assumption.
Qed.

(** Line 101 in binary64, as CPython evaluates it: for every float
    [avg_ndvi] with [-1 <= avg_ndvi <= 1] the rounded result of
    [(avg_ndvi + 1) * 50] satisfies [0 <= green_cover_percentage <= 100].
    Both roundings are to nearest-even; neither can leave the interval,
    its ends being floats. *)
Theorem binary64_green_cover_percentage_in_range (avg_ndvi : float) :
  (-1 <=? avg_ndvi)%float = true ->
  (avg_ndvi <=? 1)%float = true ->
  (0 <=? Binary64.green_cover_percentage avg_ndvi)%float = true
  /\ (Binary64.green_cover_percentage avg_ndvi <=? 100)%float = true.
Proof.
  rewrite !leb_spec. unfold Binary64.green_cover_percentage. rewrite mul_spec, add_spec.
  replace (Prim2SF (-1)) with (S754_finite true 4503599627370496 (-52)) by reflexivity.
  replace (Prim2SF 1) with (S754_finite false 4503599627370496 (-52)) by reflexivity.
  replace (Prim2SF 0) with (S754_zero false) by reflexivity.
  replace (Prim2SF 50) with (S754_finite false 7036874417766400 (-47)) by reflexivity.
  replace (Prim2SF 100) with (S754_finite false 7036874417766400 (-46)) by reflexivity.
  intros lo hi.
  destruct (SFadd_one_range (Prim2SF avg_ndvi) (Prim2SF_valid avg_ndvi) lo hi) as [L U].
  apply SFmul_fifty_range.
  - change (valid_binary (SF64add (Prim2SF avg_ndvi) (Prim2SF 1)) = true).
    rewrite <- add_spec. apply Prim2SF_valid.
  - exact L.
  - exact U.
Qed.

Lemma binary64_green_cover_percentage_in_range_witness :
  (0 <=? Binary64.green_cover_percentage 0.35)%float = true
  /\ (Binary64.green_cover_percentage 0.35 <=? 100)%float = true.
Proof.
  apply (binary64_green_cover_percentage_in_range 0.35%float); reflexivity.
Defined.

End Binary64Range.
